(** * The PDF report route of the study-abroad readiness assessment

    A model of [src/app/api/generate-pdf/route.ts]: the [POST] handler, the
    report builder [generateHTMLContent] with its two card helpers, and the
    fallback document the handler answers with when the PDF step fails.

    How the program is read.
    - The request body is whatever [request.json()] yields, a [JSON] value;
      reading a property yields a [value], a JSON value or [undefined].
      The program reads its input by truthiness ([a || b], [c ? x : y],
      [!a]) and coerces it by interpolation, so the model carries
      JavaScript's [ToString], [ToNumber] and truthiness on these values.
    - A number is the exact rational value of the double, or [NaN], or an
      infinity. [Math.round] and the comparisons are exact on them.
    - An evaluation either completes or throws ([result]); every throw
      inside [POST] reaches the one [catch] of the handler.
    - A string holds the UTF-8 bytes of its text and is read character by
      character. The class [\s] is the one of ECMA-262. [toLowerCase] is
      exact on the characters up to U+017F (Basic Latin, Latin-1
      Supplement, Latin Extended-A); the lower case of a text with any
      other character is left to the host.
    - The constructor of a response checks its header values and throws
      on one that is no header value.
    - The browser library is an oracle ([World]) that fixes which of
      [launch], [newPage], [setContent] and [pdf] succeed; the handler
      records the calls that took effect in a trace. [browser.close], the
      two timeout setters of the page and the wait of three seconds are
      taken to complete.
    - [console.log] and [console.error] are not modelled.
    - [generateRecommendationSection] is defined in the source and never
      called; it is modelled on the types its signature declares. *)

From Stdlib Require Import String Ascii List NArith ZArith QArith Qround DecimalString.
From Stdlib Require Import Bool Lia Lqa.
From Stdlib Require Import Init.Byte.
Import ListNotations.

Close Scope Q_scope.
Open Scope list_scope.
Open Scope string_scope.

(** ** Completions *)

(** The outcome of evaluating an expression: a value, or a thrown exception
    (a [TypeError], or the rejection of an awaited promise). The handler
    never inspects what was thrown, so a throw carries nothing. *)
Inductive result (A : Type) : Type :=
| OK (a : A)
| Throw.

Arguments OK {A} a.
Arguments Throw {A}.

Definition bind {A B : Type} (r : result A) (k : A -> result B) : result B :=
  match r with
  | OK a => k a
  | Throw => Throw
  end.

Notation "x <- e ;; k" := (bind e (fun x => k))
  (at level 61, e at next level, right associativity).

(** ** Text *)

(** The double quote, and a double-quoted attribute value. *)
Definition dq : string := String (ascii_of_nat 34) EmptyString.

Definition q (s : string) : string := dq ++ s ++ dq.

(** The decimal digits of an integer, with a minus sign below zero. *)
Definition decimal (z : Z) : string := NilZero.string_of_int (Z.to_int z).

(** [l.join('')]. *)
Definition join (l : list string) : string := fold_right append EmptyString l.

(** *** Characters

    A string holds the UTF-8 bytes of a text. A character is the bytes of
    one code point: a first byte and the bytes 80 to BF that continue it,
    one after a first byte C0 to DF, two after E0 to EF, three after F0 to
    FF, none after any other. *)

Definition continues (c : ascii) : bool :=
  let n := N_of_ascii c in
  ((128 <=? n) && (n <? 192))%N.

(** How many bytes follow the first byte [c] of a character. *)
Definition following (c : ascii) : nat :=
  let n := N_of_ascii c in
  if (n <? 192)%N then 0
  else if (n <? 224)%N then 1
  else if (n <? 240)%N then 2
  else 3.

(** The continuation bytes that stand at the front of the characters [l],
    [n] of them at most, and the characters after them. *)
Fixpoint continuation (n : nat) (l : list string) : string * list string :=
  match n, l with
  | S n', String c EmptyString :: rest =>
      if continues c
      then let (tail, others) := continuation n' rest in (String c tail, others)
      else (EmptyString, l)
  | _, _ => (EmptyString, l)
  end.

(** The characters of a text. A first byte takes the continuation bytes
    that follow it, as many as it announces; a byte that continues nothing
    is a character of its own. *)
Fixpoint characters (s : string) : list string :=
  match s with
  | EmptyString => []
  | String c rest =>
      let (tail, others) := continuation (following c) (characters rest) in
      String c tail :: others
  end.

(** The character of a code point below U+10000. *)
Definition utf8 (n : N) : string :=
  if (n <? 128)%N then String (ascii_of_N n) EmptyString
  else if (n <? 2048)%N
  then String (ascii_of_N (192 + n / 64))
         (String (ascii_of_N (128 + n mod 64)) EmptyString)
  else String (ascii_of_N (224 + n / 4096))
         (String (ascii_of_N (128 + (n / 64) mod 64))
            (String (ascii_of_N (128 + n mod 64)) EmptyString)).

(** The code point of a character below U+0800, of one byte or of two. *)
Definition codePoint (ch : string) : option N :=
  match ch with
  | String a EmptyString =>
      if (N_of_ascii a <? 128)%N then Some (N_of_ascii a) else None
  | String a (String b EmptyString) =>
      if ((194 <=? N_of_ascii a) && (N_of_ascii a <? 224))%N && continues b
      then Some ((N_of_ascii a - 192) * 64 + (N_of_ascii b - 128))%N
      else None
  | _ => None
  end.

(** The class [\s] of a regular expression: the white space and the line
    terminators of ECMA-262. These are tab, line feed, vertical tab, form
    feed, carriage return, space, the no-break space U+00A0, U+1680, U+2000
    to U+200A, the line and paragraph separators U+2028 and U+2029, U+202F,
    U+205F, U+3000 and the byte order mark U+FEFF. *)
Definition WhiteSpace : list N :=
  [ 0x9; 0xA; 0xB; 0xC; 0xD; 0x20; 0xA0; 0x1680;
    0x2000; 0x2001; 0x2002; 0x2003; 0x2004; 0x2005; 0x2006; 0x2007;
    0x2008; 0x2009; 0x200A; 0x2028; 0x2029; 0x202F; 0x205F; 0x3000;
    0xFEFF ]%N.

Definition isWhiteSpace (ch : string) : bool :=
  existsb (fun n => (ch =? utf8 n)%string) WhiteSpace.

(** [s.replace(/\s+/g, '-')] on the characters of [s]: every maximal run
    of white space becomes one hyphen. [in_run] says that the character
    before was white space. *)
Fixpoint replace_runs (in_run : bool) (cs : list string) : list string :=
  match cs with
  | [] => []
  | c :: rest =>
      if isWhiteSpace c
      then if in_run then replace_runs true rest
           else "-" :: replace_runs true rest
      else c :: replace_runs false rest
  end.

Definition replace_whitespace (s : string) : string :=
  join (replace_runs false (characters s)).

(** The lower case of a code point up to U+017F, by the Unicode character
    database: Basic Latin, the Latin-1 Supplement (U+00D7 is the
    multiplication sign) and Latin Extended-A, where capital and small
    letters alternate, from an even code point up to U+0137 and from U+014A
    to U+0177, from an odd one from U+0139 to U+0148 and from U+0179 to
    U+017E. U+0130 gives two code points, U+0178 the small letter of
    Latin-1. *)
Definition lower_point (n : N) : list N :=
  if ((0x41 <=? n) && (n <=? 0x5A))%N then [n + 32]%N
  else if ((0xC0 <=? n) && (n <=? 0xDE) && negb (n =? 0xD7))%N then [n + 32]%N
  else if (n =? 0x130)%N then [0x69; 0x307]%N
  else if (n =? 0x178)%N then [0xFF]%N
  else if (((0x100 <=? n) && (n <=? 0x137) || (0x14A <=? n) && (n <=? 0x177))
           && N.even n)%N then [n + 1]%N
  else if (((0x139 <=? n) && (n <=? 0x148) || (0x179 <=? n) && (n <=? 0x17E))
           && N.odd n)%N then [n + 1]%N
  else [n].

(** A character up to U+017F. *)
Definition latin (ch : string) : bool :=
  match codePoint ch with
  | Some n => (n <? 0x180)%N
  | None => false
  end.

(** The lower case of a character up to U+017F. *)
Definition lower (ch : string) : string :=
  match codePoint ch with
  | Some n => join (map utf8 (lower_point n))
  | None => ch
  end.

(** ** Numbers *)

Inductive number : Type :=
| Fin (x : Q)
| NaN
| PosInf
| NegInf.

(** What the model leaves to the JavaScript host: reading a number out of a
    string ([StringToNumber] of ECMA-262, used when a score or a length is
    not a number), printing a number that is not an integer of at most
    2^53 in magnitude (the shortest digits that read back as the same
    double; up to 2^53 these are the digits of the integer), and the lower
    case of a text that holds a character above U+017F. Every statement
    below holds whatever these three are. *)
Class Host : Type := {
  StringToNumber : string -> number;
  NumberToString_host : Q -> string;
  toLowerCase_host : string -> string
}.

Definition is_integer (x : Q) : bool := Qeq_bool x (inject_Z (Qfloor x)).

(** [Math.round]: the nearest integer, a tie going up. *)
Definition Math_round (n : number) : number :=
  match n with
  | Fin x => Fin (inject_Z (Qfloor (x + (1 # 2))%Q))
  | other => other
  end.

(** [n >= bound], false on [NaN]. *)
Definition number_ge (n : number) (bound : Z) : bool :=
  match n with
  | Fin x => Qle_bool (inject_Z bound) x
  | PosInf => true
  | NaN | NegInf => false
  end.

(** [n > 0], false on [NaN]. *)
Definition number_positive (n : number) : bool :=
  match n with
  | Fin x => negb (Qle_bool x 0)
  | PosInf => true
  | NaN | NegInf => false
  end.

Definition number_truthy (n : number) : bool :=
  match n with
  | Fin x => negb (Qeq_bool x 0)
  | NaN => false
  | PosInf | NegInf => true
  end.

(** ** Values *)

(** What [JSON.parse] builds. An object is the list of its own properties;
    a property is read at its first entry. *)
#[warnings="-register-all"]
Inductive JSON : Type :=
| JNull
| JBool (b : bool)
| JNum (n : number)
| JStr (s : string)
| JArr (items : list JSON)
| JObj (props : list (string * JSON)).

(** The result of reading a property: a JSON value, or [undefined]. *)
Definition value : Type := option JSON.

Definition undefined : value := None.

Fixpoint own (props : list (string * JSON)) (k : string) : value :=
  match props with
  | [] => undefined
  | (k', v) :: rest => if (k' =? k)%string then Some v else own rest k
  end.

Definition has_own (props : list (string * JSON)) (k : string) : bool :=
  match own props k with
  | Some _ => true
  | None => false
  end.

(** The property [k] of [o], for the names this program reads on its input
    ([Student Name], [studentName], [Scores], the six categories, ...):
    none of them is a member of a prototype, an index or [length], so only
    an object can hold one. *)
Definition field (o : JSON) (k : string) : value :=
  match o with
  | JObj props => own props k
  | _ => undefined
  end.

(** [o[k]]: reading a property of [null] or [undefined] throws. *)
Definition get (o : value) (k : string) : result value :=
  match o with
  | None | Some JNull => Throw
  | Some j => OK (field j k)
  end.

Definition truthy_json (j : JSON) : bool :=
  match j with
  | JNull => false
  | JBool b => b
  | JNum n => number_truthy n
  | JStr s => negb (s =? "")%string
  | JArr _ | JObj _ => true
  end.

Definition truthy (v : value) : bool :=
  match v with
  | None => false
  | Some j => truthy_json j
  end.

(** [a || b]: [b] is evaluated only when [a] is falsy. *)
Definition or_else (a b : result value) : result value :=
  x <- a ;; if truthy x then OK x else b.

Notation "a ||| b" := (or_else a b) (at level 50, left associativity).

Definition text (s : string) : result value := OK (Some (JStr s)).

Section Coercions.

Context {host : Host}.

(** [s.toLowerCase()]. The lower case of a text is the lower case of its
    characters, one by one, as long as all of them are up to U+017F. *)
Definition toLowerCase (s : string) : string :=
  if forallb latin (characters s)
  then join (map lower (characters s))
  else toLowerCase_host s.

(** [Number::toString] in base ten. *)
Definition Number_toString (n : number) : string :=
  match n with
  | Fin x =>
      if is_integer x && (Z.abs (Qfloor x) <=? 2 ^ 53)%Z
      then decimal (Qfloor x)
      else NumberToString_host x
  | NaN => "NaN"
  | PosInf => "Infinity"
  | NegInf => "-Infinity"
  end.

(** [ToString] on a JSON value. An array is joined with commas, [null]
    elements giving the empty text. A plain object answers
    [[object Object]] through [Object.prototype.toString], unless it has an
    own property [toString]: that one comes from JSON, is not callable, and
    [valueOf] returns the object itself, so the conversion throws. *)
Fixpoint ToString_json (j : JSON) : result string :=
  match j with
  | JNull => OK "null"
  | JBool b => OK (if b then "true" else "false")
  | JNum n => OK (Number_toString n)
  | JStr s => OK s
  | JArr items =>
      (fix join (l : list JSON) : result string :=
         match l with
         | [] => OK EmptyString
         | x :: rest =>
             a <- match x with
                  | JNull => OK EmptyString
                  | _ => ToString_json x
                  end ;;
             match rest with
             | [] => OK a
             | _ :: _ => b <- join rest ;; OK (a ++ "," ++ b)
             end
         end) items
  | JObj props =>
      if has_own props "toString" then Throw else OK "[object Object]"
  end.

(** [ToString], as a template literal applies it to [${v}]. *)
Definition ToString (v : value) : result string :=
  match v with
  | None => OK "undefined"
  | Some j => ToString_json j
  end.

(** [ToNumber]. An array goes through its [ToString]; a plain object gives
    [NaN], or throws as in [ToString_json]. *)
Definition ToNumber (v : value) : result number :=
  match v with
  | None => OK NaN
  | Some JNull => OK (Fin 0)
  | Some (JBool b) => OK (Fin (if b then 1 else 0))
  | Some (JNum n) => OK n
  | Some (JStr s) => OK (StringToNumber s)
  | Some (JArr items) => s <- ToString_json (JArr items) ;; OK (StringToNumber s)
  | Some (JObj props) => if has_own props "toString" then Throw else OK NaN
  end.

End Coercions.

(** ** The templates

    The static text of the template literals of the source, cut at each
    [${...}]. *)

(** The score card of [generateScoreCard] (lines 138-147): the text before
    the label, the percentage, the class of the bar, its width and the
    weight, and the text after the weight. *)

Definition card_open : string :=
  "
      <div class=" ++ q "score-card" ++ ">
        <h4>".

Definition card_value : string :=
  "</h4>
        <div class=" ++ q "score-value" ++ ">".

Definition card_bar : string :=
  "%</div>
        <div class=" ++ q "score-bar" ++ ">
          <div class=" ++ dq ++ "score-fill ".

Definition card_width : string :=
  dq ++ " style=" ++ dq ++ "width: ".

Definition card_weight : string :=
  "%" ++ dq ++ "></div>
        </div>
        <div style=" ++ q "font-size: 0.7em; color: #666; margin-top: 4px;" ++ ">Weight: ".

Definition card_close : string :=
  "</div>
      </div>
    ".

(** The country card of [generateCountryCard] (lines 167-174): the text
    before the rank, the flag, the name and the match percentage, and the
    text after it. *)

Definition country_open : string :=
  "
      <div class=" ++ q "country-card" ++ ">
        <div class=" ++ q "country-rank" ++ ">#".

Definition country_flag : string :=
  "</div>
        <div class=" ++ q "country-flag" ++ ">".

Definition country_name : string :=
  "</div>
        <div class=" ++ q "country-name" ++ ">".

Definition country_score : string :=
  "</div>
        <div class=" ++ q "country-score" ++ ">".

Definition country_close : string :=
  "% Match</div>
      </div>
    ".

(** The page (lines 195-599). [tpl_document], [tpl_stylesheet] and
    [tpl_header] are, in this order, the text before the student name. Each
    further piece is the text before the interpolation it is named after:
    the date, the overall index, the readiness level, the first place of
    the scores grid ([tpl_scores]) and each of the five other places
    ([tpl_slot]), the strengths, the gaps, the recommendations, the section
    of the countries and the second date ([tpl_footer]); [tpl_close] is the
    end of the page. *)

Definition tpl_document : string :=
  "
    <!DOCTYPE html>
    <html lang=" ++ q "en" ++ ">
    <head>
        <meta charset=" ++ q "UTF-8" ++ ">
        <meta name=" ++ q "viewport" ++ " content=" ++ q "width=device-width, initial-scale=1.0" ++ ">
        <title>D-Vivid Consultant - Study Abroad Assessment Report</title>
        <style>".

Definition tpl_stylesheet : string :=
  "
            @import url('https://fonts.googleapis.com/css2?family=Poppins:wght@300;400;500;600;700;800&display=swap');
            @import url('https://fonts.googleapis.com/css2?family=Montserrat:wght@400;500;600;700;800&display=swap');

            * {
                margin: 0;
                padding: 0;
                box-sizing: border-box;
            }
            
            body {
                font-family: 'Poppins', sans-serif;
                line-height: 1.4;
                color: #333;
                background: #ffffff;
                margin: 0;
                padding: 0;
                font-size: 12px;
            }
            
            .page {
                width: 210mm;
                min-height: 297mm;
                margin: 0 auto;
                background: #ffffff;
                position: relative;
                padding: 0;
            }
            
            .header {
                background: linear-gradient(135deg, #003B8C 0%, #5BE49B 100%);
                color: white;
                padding: 15px 20px;
                text-align: center;
                position: relative;
                overflow: hidden;
                height: 80px;
            }
            
            .header-content {
                display: flex;
                align-items: center;
                justify-content: space-between;
                height: 100%;
            }
            
            .logo-section {
                display: flex;
                align-items: center;
                gap: 15px;
            }
            
            .logo {
                width: 50px;
                height: 50px;
                background: white;
                border-radius: 50%;
                display: flex;
                align-items: center;
                justify-content: center;
                box-shadow: 0 4px 12px rgba(0,0,0,0.3);
            }
            
            .logo img {
                max-width: 80%;
                max-height: 80%;
            }
            
            .company-info h1 {
                font-family: 'Montserrat', sans-serif;
                font-size: 1.8em;
                font-weight: 800;
                margin: 0;
                text-shadow: 1px 1px 2px rgba(0,0,0,0.3);
            }
            
            .company-info p {
                font-size: 0.9em;
                opacity: 0.95;
                margin: 0;
                font-weight: 500;
            }
            
            .report-title {
                text-align: center;
                flex: 1;
            }
            
            .report-title h2 {
                font-size: 1.4em;
                font-weight: 700;
                margin: 0;
            }
            
            .report-title p {
                font-size: 0.8em;
                opacity: 0.9;
                margin: 2px 0 0 0;
            }
            
            .footer {
                position: absolute;
                bottom: 0;
                left: 0;
                right: 0;
                background: linear-gradient(135deg, #003B8C 0%, #5BE49B 100%);
                color: white;
                padding: 8px 20px;
                text-align: center;
                font-size: 0.8em;
                height: 30px;
                display: flex;
                align-items: center;
                justify-content: space-between;
            }
            
            .footer-logo {
                width: 20px;
                height: 20px;
                background: white;
                border-radius: 50%;
                display: inline-flex;
                align-items: center;
                justify-content: center;
                margin-right: 8px;
            }
            
            .footer-logo img {
                max-width: 70%;
                max-height: 70%;
            }
            
            .content {
                padding: 20px;
                min-height: calc(297mm - 110px);
                display: flex;
                flex-direction: column;
                gap: 15px;
            }
            
            .student-info {
                display: grid;
                grid-template-columns: 1fr 1fr;
                gap: 15px;
                margin-bottom: 15px;
            }
            
            .info-item {
                background: linear-gradient(135deg, #f8f9fa, #e9ecef);
                padding: 12px;
                border-radius: 8px;
                border-left: 4px solid #5BE49B;
            }
            
            .info-label {
                font-weight: 700;
                color: #666;
                margin-bottom: 4px;
                font-size: 0.8em;
                text-transform: uppercase;
                letter-spacing: 0.5px;
            }
            
            .info-value {
                font-size: 1.1em;
                font-weight: 800;
                color: #003B8C;
            }
            
            .overall-score {
                text-align: center;
                margin: 15px 0;
                padding: 20px;
                background: linear-gradient(45deg, #003B8C, #5BE49B);
                color: white;
                border-radius: 10px;
            }
            
            .overall-score h3 {
                font-size: 2.5em;
                margin-bottom: 8px;
                font-weight: 800;
            }
            
            .overall-score p {
                font-size: 1.2em;
                opacity: 0.95;
                font-weight: 600;
            }
            
            .scores-grid {
                display: grid;
                grid-template-columns: repeat(3, 1fr);
                gap: 12px;
                margin: 15px 0;
            }
            
            .score-card {
                background: #ffffff;
                padding: 15px;
                border-radius: 10px;
                border: 2px solid #e0e0e0;
                text-align: center;
            }
            
            .score-card h4 {
                font-size: 1em;
                color: #003B8C;
                font-weight: 700;
                margin-bottom: 8px;
            }
            
            .score-value {
                font-size: 2em;
                font-weight: 800;
                color: #003B8C;
                margin-bottom: 5px;
            }
            
            .score-bar {
                height: 8px;
                background: #e9ecef;
                border-radius: 4px;
                overflow: hidden;
                margin-bottom: 5px;
            }
            
            .score-fill {
                height: 100%;
                border-radius: 4px;
                transition: width 0.3s ease;
            }
            
            .score-fill.excellent { background: linear-gradient(90deg, #22C55E, #16A34A); }
            .score-fill.good { background: linear-gradient(90deg, #3B82F6, #2563EB); }
            .score-fill.average { background: linear-gradient(90deg, #F59E0B, #D97706); }
            .score-fill.weak { background: linear-gradient(90deg, #EF4444, #DC2626); }
            
            .analysis-section {
                background: #f8f9fa;
                padding: 15px;
                border-radius: 8px;
                border-left: 4px solid #003B8C;
                margin: 10px 0;
            }
            
            .analysis-section h4 {
                font-size: 1.1em;
                color: #003B8C;
                margin-bottom: 8px;
                font-weight: 700;
            }
            
            .analysis-section p {
                line-height: 1.5;
                color: #555;
                font-size: 0.9em;
            }
            
            .country-fit {
                display: grid;
                grid-template-columns: repeat(3, 1fr);
                gap: 12px;
                margin: 15px 0;
            }
            
            .country-card {
                background: linear-gradient(135deg, #f8f9fa, #e9ecef);
                padding: 15px;
                border-radius: 10px;
                text-align: center;
                border: 2px solid #e0e0e0;
            }
            
            .country-rank {
                background: linear-gradient(45deg, #003B8C, #5BE49B);
                color: white;
                width: 30px;
                height: 30px;
                border-radius: 50%;
                display: flex;
                align-items: center;
                justify-content: center;
                margin: 0 auto 8px auto;
                font-weight: 800;
                font-size: 0.9em;
            }
            
            .country-flag {
                font-size: 1.5em;
                margin-bottom: 5px;
            }
            
            .country-name {
                font-size: 1em;
                font-weight: 700;
                color: #003B8C;
                margin-bottom: 5px;
            }
            
            .country-score {
                background: linear-gradient(45deg, #5BE49B, #4ade80);
                color: white;
                padding: 4px 8px;
                border-radius: 6px;
                font-weight: 700;
                font-size: 0.8em;
            }
            
            @media print {
                body { -webkit-print-color-adjust: exact; print-color-adjust: exact; }
                .page { box-shadow: none; border: none; }
                .header, .footer { background-color: #003B8C !important; }
            }
".

Definition tpl_header : string :=
  "        </style>
    </head>
    <body>
        <div class=" ++ q "page" ++ ">
            <div class=" ++ q "header" ++ ">
                <div class=" ++ q "header-content" ++ ">
                    <div class=" ++ q "logo-section" ++ ">
                        <div class=" ++ q "logo" ++ ">
                            <img src=" ++ q "https://iili.io/Jp021xX.png" ++ " alt=" ++ q "D-Vivid Logo" ++ "/>
                        </div>
                        <div class=" ++ q "company-info" ++ ">
                            <h1>D-Vivid Consultant</h1>
                            <p>Strategic Counselling Circle</p>
                        </div>
                    </div>
                    <div class=" ++ q "report-title" ++ ">
                        <h2>Study Abroad Assessment Report</h2>
                        <p>Comprehensive Readiness Index (CRI)</p>
                    </div>
                </div>
            </div>
            
            <div class=" ++ q "content" ++ ">
                <div class=" ++ q "student-info" ++ ">
                    <div class=" ++ q "info-item" ++ ">
                        <div class=" ++ q "info-label" ++ ">Student Name</div>
                        <div class=" ++ q "info-value" ++ ">".

Definition tpl_date : string :=
  "</div>
                    </div>
                    <div class=" ++ q "info-item" ++ ">
                        <div class=" ++ q "info-label" ++ ">Assessment Date</div>
                        <div class=" ++ q "info-value" ++ ">".

Definition tpl_index : string :=
  "</div>
                    </div>
                </div>
                
                <div class=" ++ q "overall-score" ++ ">
                    <h3>".

Definition tpl_level : string :=
  "%</h3>
                    <p>Overall Readiness Index: ".

Definition tpl_scores : string :=
  "</p>
                </div>
                
                <div class=" ++ q "scores-grid" ++ ">
                    ".

Definition tpl_slot : string :=
  "
                    ".

Definition tpl_strengths : string :=
  "
                </div>
                
                <div class=" ++ q "analysis-section" ++ ">
                    <h4>💪 Key Strengths</h4>
                    <p>".

Definition tpl_gaps : string :=
  "</p>
                </div>
                
                <div class=" ++ q "analysis-section" ++ ">
                    <h4>⚠️ Areas for Development</h4>
                    <p>".

Definition tpl_recommendations : string :=
  "</p>
                </div>
                
                <div class=" ++ q "analysis-section" ++ ">
                    <h4>🎯 Strategic Recommendations</h4>
                    <p>".

Definition tpl_countries : string :=
  "</p>
                </div>
                
                ".

Definition tpl_footer : string :=
  "
            </div>
            
            <div class=" ++ q "footer" ++ ">
                <div style=" ++ q "display: flex; align-items: center;" ++ ">
                    <div class=" ++ q "footer-logo" ++ ">
                        <img src=" ++ q "https://iili.io/Jp021xX.png" ++ " alt=" ++ q "D-Vivid Logo" ++ "/>
                    </div>
                    <span>D-Vivid Consultant - Strategic Counselling Circle</span>
                </div>
                <div>Report Generated: ".

Definition tpl_close : string :=
  "</div>
            </div>
        </div>
    </body>
    </html>
  ".

(** The section of the countries (lines 579-584), before and after its
    cards. *)

Definition fit_open : string :=
  "
                <div class=" ++ q "country-fit" ++ ">
                    <h4 style=" ++ q "grid-column: 1/-1; text-align: center; color: #003B8C; margin-bottom: 10px;" ++ ">🌍 Recommended Study Destinations</h4>
                    ".

Definition fit_close : string :=
  "
                </div>
                ".

(** The fallback document (lines 65-80): the text before the name in the
    title, the name in the heading, the overall index, the readiness level,
    the strengths and the recommendations, and the text after them, which
    holds the note. *)

Definition fb_title : string :=
  "
        <html>
          <head><title>Study Abroad Report - ".

Definition fb_student : string :=
  "</title></head>
          <body style=" ++ q "font-family: Arial, sans-serif; padding: 20px;" ++ ">
            <h1>Study Abroad Readiness Report</h1>
            <h2>Student: ".

Definition fb_index : string :=
  "</h2>
            <p><strong>Overall Readiness Index:</strong> ".

Definition fb_level : string :=
  "</p>
            <p><strong>Readiness Level:</strong> ".

Definition fb_strengths : string :=
  "</p>
            <h3>Strengths:</h3>
            <p>".

Definition fb_recommendations : string :=
  "</p>
            <h3>Recommendations:</h3>
            <p>".

Definition fb_note : string :=
  "</p>
            <p><em>Note: This is a simplified report. For detailed analysis, please retry PDF generation.</em></p>
          </body>
        </html>
      ".

(** The two [Content-Disposition] values (lines 83 and 107), around the
    slug of the student name. *)

Definition html_name_prefix : string :=
  "attachment; filename=" ++ dq ++ "study-abroad-report-".

Definition html_name_suffix : string :=
  ".html" ++ dq.

Definition pdf_name_prefix : string :=
  "attachment; filename=" ++ dq ++ "psychometric-report-".

Definition pdf_name_suffix : string :=
  ".pdf" ++ dq.

(** The section of [generateRecommendationSection] (lines 178-193): the text
    before the icon, the title and the items, and the text after them. *)

Definition rec_open : string :=
  "
    <div class=" ++ q "recommendation-section" ++ ">
      <div class=" ++ q "recommendation-header" ++ ">
        <span class=" ++ q "recommendation-icon" ++ ">".

Definition rec_title : string :=
  "</span>
        <h4>".

Definition rec_items : string :=
  "</h4>
      </div>
      <div class=" ++ q "recommendation-content" ++ ">
        ".

Definition rec_close : string :=
  "
      </div>
    </div>
  ".

(** One item of the section (lines 185-190): the text before its number and
    its text, and the text after it. *)

Definition item_open : string :=
  "
          <div class=" ++ q "recommendation-item" ++ ">
            <span class=" ++ q "item-number" ++ ">".

Definition item_text : string :=
  "</span>
            <span class=" ++ q "item-text" ++ ">".

Definition item_close : string :=
  "</span>
          </div>
        ".

(** ** The report builder *)

Section Report.

Context {host : Host}.

(** The fill colour of a score bar (line 136). *)
Definition barClass (percentage : number) : string :=
  if number_ge percentage 80 then "excellent"
  else if number_ge percentage 60 then "good"
  else if number_ge percentage 40 then "average"
  else "weak".

(** [generateScoreCard] (lines 134-148). TypeScript declares [score] a
    number; at run time it is whatever the input holds under the category,
    and [Math.round] coerces it. *)
Definition generateScoreCard (label : string) (score : value) (weight : string)
  : result string :=
  n <- ToNumber score ;;
  let percentage := Math_round n in
  OK (card_open ++ label ++
      card_value ++ Number_toString percentage ++
      card_bar ++ barClass percentage ++
      card_width ++ Number_toString percentage ++
      card_weight ++ weight ++
      card_close).

(** The table of [generateCountryCard] (lines 152-163): country and flag. *)
Definition countryInfo : list (string * string) :=
  [ ("Singapore", "🇸🇬");
    ("Ireland", "🇮🇪");
    ("Netherlands", "🇳🇱");
    ("Canada", "🇨🇦");
    ("Australia", "🇦🇺");
    ("United Kingdom", "🇬🇧");
    ("Germany", "🇩🇪");
    ("United States", "🇺🇸");
    ("India", "🇮🇳");
    ("United Arab Emirates", "🇦🇪") ].

Fixpoint lookup (table : list (string * string)) (k : string) : option string :=
  match table with
  | [] => None
  | (k', v) :: rest => if (k' =? k)%string then Some v else lookup rest k
  end.

(** [countryInfo] is an object literal, so a read that misses its own keys
    goes on to [Object.prototype]. These are the members found there: the
    methods of every object, and the accessor [__proto__]. Each is a
    function or an object, hence truthy, and none has a property [flag]. *)
Definition Object_prototype : list string :=
  [ "constructor"; "hasOwnProperty"; "isPrototypeOf"; "propertyIsEnumerable";
    "toLocaleString"; "toString"; "valueOf"; "__proto__";
    "__defineGetter__"; "__defineSetter__"; "__lookupGetter__";
    "__lookupSetter__" ].

(** What [countryInfo[key]] finds. *)
Inductive member : Type :=
| Entry (flag : string)
| Inherited.

Definition countryInfo_get (key : string) : option member :=
  match lookup countryInfo key with
  | Some flag => Some (Entry flag)
  | None =>
      if existsb (String.eqb key) Object_prototype then Some Inherited
      else None
  end.

(** [info.flag]. *)
Definition flag_of (info : member) : value :=
  match info with
  | Entry flag => Some (JStr flag)
  | Inherited => undefined
  end.

(** [generateCountryCard] (lines 151-175). [country] is an element of the
    input array; as a property key and in the card it is converted by
    [ToString]. [index] is the position [map] passes. *)
Definition generateCountryCard (country : JSON) (index : nat) : result string :=
  key <- ToString_json country ;;
  let info :=
    match countryInfo_get key with
    | Some found => found
    | None => Entry "🌍"
    end in
  flag <- ToString (flag_of info) ;;
  name <- ToString_json country ;;
  OK (country_open ++ decimal (Z.of_nat index + 1) ++
      country_flag ++ flag ++
      country_name ++ name ++
      country_score ++ decimal (100 - Z.of_nat index * 15) ++
      country_close).

(** [countryFit.map(generateCountryCard).join('')], from position [index]. *)
Fixpoint countryCards (countryFit : list JSON) (index : nat) : result string :=
  match countryFit with
  | [] => OK EmptyString
  | country :: rest =>
      card <- generateCountryCard country index ;;
      cards <- countryCards rest (S index) ;;
      OK (card ++ cards)
  end.

(** The last interpolation of the page (lines 579-584):
    [countryFit.length > 0 ? `...` : '']. An array has a length and [map].
    A string has a length and no [map]; an object has the [length] and the
    [map] it was given, and a JSON value cannot be called: with a positive
    length, both throw. A number or a boolean has no [length]. *)
Definition countrySection (countryFit : value) : result string :=
  match countryFit with
  | None | Some JNull => Throw
  | Some (JArr []) => OK EmptyString
  | Some (JArr items) =>
      cards <- countryCards items 0 ;;
      OK (fit_open ++ cards ++ fit_close)
  | Some (JStr s) => if (s =? "")%string then OK EmptyString else Throw
  | Some (JObj props) =>
      n <- ToNumber (own props "length") ;;
      if number_positive n then Throw else OK EmptyString
  | Some (JBool _) | Some (JNum _) => OK EmptyString
  end.

(** One line of the scores grid (lines 556-561):
    [scores[label] ? generateScoreCard(label, scores[label], weight) : '']. *)
Definition scoreSlot (scores : value) (label weight : string) : result string :=
  score <- get scores label ;;
  if truthy score then generateScoreCard label score weight
  else OK EmptyString.

(** The texts interpolated into the page, one for each [${...}] of the
    template but the date. *)
Record pieces : Type := {
  p_name : string;
  p_index : string;
  p_level : string;
  p_financial : string;
  p_academic : string;
  p_career : string;
  p_personal : string;
  p_practical : string;
  p_support : string;
  p_strengths : string;
  p_gaps : string;
  p_recommendations : string;
  p_countries : string
}.

(** The constants of lines 124-131, then the interpolations of the
    template (lines 542-584) from left to right. *)
Definition interpolations (results : JSON) : result pieces :=
  let results : value := Some results in
  studentName <-
    get results "Student Name" ||| get results "studentName" ||| text "Student" ;;
  scores <- get results "Scores" ||| OK (Some (JObj [])) ;;
  overallIndex <-
    get results "Overall Readiness Index" ||| OK (Some (JNum (Fin 0))) ;;
  readinessLevel <- get results "Readiness Level" ||| text "Needs Assessment" ;;
  strengths <- get results "Strengths" ||| text "No strengths identified" ;;
  gaps <- get results "Gaps" ||| text "No gaps identified" ;;
  recommendations <-
    get results "Recommendations" ||| text "No recommendations provided" ;;
  countryFit <- get results "Country Fit (Top 3)" ||| OK (Some (JArr [])) ;;
  name <- ToString studentName ;;
  index <- ToString overallIndex ;;
  level <- ToString readinessLevel ;;
  financial <- scoreSlot scores "Financial Planning" "25%" ;;
  academic <- scoreSlot scores "Academic Readiness" "20%" ;;
  career <- scoreSlot scores "Career Alignment" "20%" ;;
  personal <- scoreSlot scores "Personal & Cultural" "15%" ;;
  practical <- scoreSlot scores "Practical Readiness" "10%" ;;
  support <- scoreSlot scores "Support System" "10%" ;;
  strengths <- ToString strengths ;;
  gaps <- ToString gaps ;;
  recommendations <- ToString recommendations ;;
  countries <- countrySection countryFit ;;
  OK {| p_name := name;
        p_index := index;
        p_level := level;
        p_financial := financial;
        p_academic := academic;
        p_career := career;
        p_personal := personal;
        p_practical := practical;
        p_support := support;
        p_strengths := strengths;
        p_gaps := gaps;
        p_recommendations := recommendations;
        p_countries := countries |}.

(** The template of lines 195-599 around its interpolations. *)
Definition layout (currentDate : string) (p : pieces) : string :=
  tpl_document ++ tpl_stylesheet ++ tpl_header ++ p_name p ++
  tpl_date ++ currentDate ++
  tpl_index ++ p_index p ++
  tpl_level ++ p_level p ++
  tpl_scores ++ p_financial p ++
  tpl_slot ++ p_academic p ++
  tpl_slot ++ p_career p ++
  tpl_slot ++ p_personal p ++
  tpl_slot ++ p_practical p ++
  tpl_slot ++ p_support p ++
  tpl_strengths ++ p_strengths p ++
  tpl_gaps ++ p_gaps p ++
  tpl_recommendations ++ p_recommendations p ++
  tpl_countries ++ p_countries p ++
  tpl_footer ++ currentDate ++
  tpl_close.

(** [generateHTMLContent] (lines 116-600). [currentDate] is the text
    [new Date().toLocaleDateString('en-US', ...)] gives at the call. *)
Definition generateHTMLContent (currentDate : string) (results : JSON)
  : result string :=
  p <- interpolations results ;;
  OK (layout currentDate p).

(** The items of [generateRecommendationSection] (lines 185-190):
    [items.map((item, index) => `...`).join('')], from position [index]. *)
Fixpoint recommendationItems (items : list string) (index : nat) : string :=
  match items with
  | [] => EmptyString
  | item :: rest =>
      (item_open ++ decimal (Z.of_nat index + 1) ++
       item_text ++ item ++
       item_close) ++
      recommendationItems rest (S index)
  end.

(** [generateRecommendationSection] (lines 178-193). Nothing calls it, so
    its arguments are what the signature declares:
    [(title: string, items: string[], icon: string)]. *)
Definition generateRecommendationSection
    (title : string) (items : list string) (icon : string) : string :=
  rec_open ++ icon ++
  rec_title ++ title ++
  rec_items ++ recommendationItems items 0 ++
  rec_close.

(** ** The handler *)

(** [results['Student Name'] || results.studentName]. *)
Definition givenName (results : JSON) : result value :=
  get (Some results) "Student Name" ||| get (Some results) "studentName".

(** The condition of line 10:
    [!results['Student Name'] && !results.studentName]. *)
Definition missingStudentName (results : JSON) : result bool :=
  first <- get (Some results) "Student Name" ;;
  if truthy first then OK false
  else second <- get (Some results) "studentName" ;; OK (negb (truthy second)).

(** [results[k] || 'fallback'], as text. *)
Definition shown (results : JSON) (k fallback : string) : result string :=
  v <- get (Some results) k ||| text fallback ;; ToString v.

(** The body of the fallback answer (lines 65-80). *)
Definition fallbackDocument (results : JSON) : result string :=
  title <- (name <- givenName results ;; ToString name) ;;
  student <- (name <- givenName results ;; ToString name) ;;
  index <- shown results "Overall Readiness Index" "N/A" ;;
  level <- shown results "Readiness Level" "Needs Assessment" ;;
  strengths <- shown results "Strengths" "No strengths identified" ;;
  recommendations <-
    shown results "Recommendations" "No recommendations provided" ;;
  OK (fb_title ++ title ++
      fb_student ++ student ++
      fb_index ++ index ++
      fb_level ++ level ++
      fb_strengths ++ strengths ++
      fb_recommendations ++ recommendations ++
      fb_note).

(** [name.replace(/\s+/g, '-').toLowerCase()] (lines 83 and 107). Only a
    string has a [replace] to call. *)
Definition slug (name : value) : result string :=
  match name with
  | Some (JStr s) => OK (toLowerCase (replace_whitespace s))
  | _ => Throw
  end.

Definition fileSlug (results : JSON) : result string :=
  name <- givenName results ;; slug name.

End Report.

(** What a response carries. *)
Inductive payload : Type :=
| JsonBody (j : JSON)
| TextBody (s : string)
| BinaryBody (b : list byte).

Record Response : Type := {
  status : Z;
  headers : list (string * string);
  body : payload
}.

Definition header (r : Response) (name : string) : option string :=
  lookup (headers r) name.

(** A character that a header value may hold: a byte, that is a character
    up to U+00FF, other than U+0000, line feed and carriage return. *)
Definition headerCharacter (ch : string) : bool :=
  match codePoint ch with
  | Some n => ((n <? 256) && negb (n =? 0) && negb (n =? 10) && negb (n =? 13))%N
  | None => false
  end.

Definition isHeaderValue (v : string) : bool :=
  forallb headerCharacter (characters v).

(** [new Response(body, { status, headers })], and [new NextResponse] in
    the same way: the constructor builds the headers first, and a value
    that is no header value throws a [TypeError]. (White space at the ends
    of a value is taken off before the check; no value of this handler
    starts or ends with any.) *)
Definition newResponse
    (code : Z) (fields : list (string * string)) (content : payload)
  : result Response :=
  if forallb (fun h => isHeaderValue (snd h)) fields
  then OK {| status := code; headers := fields; body := content |}
  else Throw.

(** [NextResponse.json(data, { status })]. *)
Definition NextResponse_json (data : JSON) (code : Z) : Response :=
  {| status := code;
     headers := [("content-type", "application/json")];
     body := JsonBody data |}.

(** [{ error: message }]. *)
Definition error (message : string) : JSON := JObj [("error", JStr message)].

(** The browser library, as far as the handler can tell: whether
    [puppeteer.launch] and [browser.newPage] resolve, whether
    [page.setContent] resolves on a document, and what [page.pdf] gives for
    it, a buffer or a rejection. [today] is the date the builder reads. *)
Record World : Type := {
  today : string;
  launch : bool;
  newPage : bool;
  setContent : string -> bool;
  pdf : string -> result (list byte)
}.

(** The calls on the browser that took effect, in order. *)
Inductive event : Type :=
| BrowserLaunched
| PageOpened
| ContentLoaded
| Waited (ms : Z)
| PdfRendered
| PdfFailed
| BrowserClosed.

(** A step of the handler: it extends the trace, and completes or throws. *)
Definition handler (A : Type) : Type := list event -> result A * list event.

Definition ret {A : Type} (a : A) : handler A := fun t => (OK a, t).

Definition eval {A : Type} (r : result A) : handler A := fun t => (r, t).

Definition emit (e : event) : handler unit := fun t => (OK tt, (t ++ [e])%list).

(** An awaited call: it takes effect, or rejects and leaves no trace. *)
Definition await (resolves : bool) (e : event) : handler unit :=
  fun t => if resolves then (OK tt, (t ++ [e])%list) else (Throw, t).

Definition andThen {A B : Type} (h : handler A) (k : A -> handler B) : handler B :=
  fun t =>
    match h t with
    | (OK a, t') => k a t'
    | (Throw, t') => (Throw, t')
    end.

Notation "x <~ h ;; k" := (andThen h (fun x => k))
  (at level 61, h at next level, right associativity).

Section Handler.

Context {host : Host}.

(** The handler past its validation (lines 15-109). The [match] on the
    outcome of [page.pdf] is the inner [try] with its [catch] (lines
    48-86). Each of the two answers 200 is built last, after its body and
    its file name and after the browser was closed. *)
Definition render (w : World) (results : JSON) : handler Response :=
  _ <~ await (launch w) BrowserLaunched ;;
  _ <~ await (newPage w) PageOpened ;;
  htmlContent <~ eval (generateHTMLContent (today w) results) ;;
  _ <~ await (setContent w htmlContent) ContentLoaded ;;
  _ <~ emit (Waited 3000) ;;
  match pdf w htmlContent with
  | Throw =>
      _ <~ emit PdfFailed ;;
      _ <~ emit BrowserClosed ;;
      document <~ eval (fallbackDocument results) ;;
      name <~ eval (fileSlug results) ;;
      eval (newResponse 200
              [ ("Content-Type", "text/html");
                ("Content-Disposition",
                 html_name_prefix ++ name ++ html_name_suffix) ]
              (TextBody document))
  | OK pdfBuffer =>
      _ <~ emit PdfRendered ;;
      if (length pdfBuffer =? 0)%nat
      then
        _ <~ emit BrowserClosed ;;
        ret (NextResponse_json (error "PDF generation failed - empty buffer") 500)
      else
        _ <~ emit BrowserClosed ;;
        name <~ eval (fileSlug results) ;;
        eval (newResponse 200
                [ ("Content-Type", "application/pdf");
                  ("Content-Length", decimal (Z.of_nat (length pdfBuffer)));
                  ("Content-Disposition",
                   pdf_name_prefix ++ name ++ pdf_name_suffix) ]
                (BinaryBody pdfBuffer))
  end.

(** The [catch] of the handler (lines 110-113), around an attempt that
    starts on the empty trace. *)
Definition caught (attempt : handler Response) : Response * list event :=
  match attempt [] with
  | (OK response, t) => (response, t)
  | (Throw, t) => (NextResponse_json (error "Failed to generate PDF") 500, t)
  end.

(** [POST] (lines 4-114). [request] is the outcome of [request.json()]. The
    result is the response and the trace of the browser calls. *)
Definition POST (w : World) (request : result JSON) : Response * list event :=
  caught
    (results <~ eval request ;;
     missing <~ eval (missingStudentName results) ;;
     if missing
     then ret (NextResponse_json (error "Missing student name") 400)
     else render w results).

End Handler.

(** * The statements

    ** Vocabulary *)

(** [needle] is a piece of [hay]. *)
Definition occurs (needle hay : string) : Prop :=
  exists pre post, hay = pre ++ needle ++ post.

(** [String.prototype.includes], to evaluate [occurs] on a given text. *)
Fixpoint includes (hay needle : string) : bool :=
  prefix needle hay ||
  match hay with
  | EmptyString => false
  | String _ rest => includes rest needle
  end.

(** The name field [k] of the body is present and not empty: it holds a
    truthy value (a string other than the empty one; also a number other
    than 0, [true], an array, an object). *)
Definition named (results : JSON) (k : string) : bool := truthy (field results k).

(** The field is absent, or the number 0. *)
Definition absent_or_zero (v : value) : Prop :=
  v = undefined \/ exists x, v = Some (JNum (Fin x)) /\ (x == 0)%Q.

(** The colour by the thresholds, on the rounded integer. *)
Definition colour (r : Z) : string :=
  if (80 <=? r)%Z then "excellent"
  else if (60 <=? r)%Z then "good"
  else if (40 <=? r)%Z then "average"
  else "weak".

(** The card of [generateScoreCard] with everything filled in. *)
Definition card (label percentage class weight : string) : string :=
  card_open ++ label ++ card_value ++ percentage ++ card_bar ++ class ++
  card_width ++ percentage ++ card_weight ++ weight ++ card_close.

(** The six categories of the grid, each with its weight and its place in
    the page. *)
Definition categories : list (string * string * (pieces -> string)) :=
  [ ("Financial Planning", "25%", p_financial);
    ("Academic Readiness", "20%", p_academic);
    ("Career Alignment", "20%", p_career);
    ("Personal & Cultural", "15%", p_personal);
    ("Practical Readiness", "10%", p_practical);
    ("Support System", "10%", p_support) ].

(** The text a card shows for the flag of the country named [key]. *)
Definition shown_flag (key : string) : string :=
  match countryInfo_get key with
  | Some (Entry flag) => flag
  | Some Inherited => "undefined"
  | None => "🌍"
  end.

(** [e] completes with a value whose text is [s]. *)
Definition renders {host : Host} (e : result value) (s : string) : Prop :=
  exists v, e = OK v /\ ToString v = OK s.

(** What [results[k] || fallback] shows: the text of the field when the
    field is truthy, the fallback otherwise. *)
Definition shows {host : Host} (results : JSON) (k fallback s : string) : Prop :=
  if truthy (field results k) then ToString (field results k) = OK s
  else s = fallback.

(** The note that closes the fallback document. *)
Definition fallback_note : string :=
  "Note: This is a simplified report. For detailed analysis, please retry PDF generation.".

(** The page before its first date, and between its two dates. *)
Definition before_date (p : pieces) : string :=
  tpl_document ++ tpl_stylesheet ++ tpl_header ++ p_name p ++ tpl_date.

Definition between_dates (p : pieces) : string :=
  tpl_index ++ p_index p ++
  tpl_level ++ p_level p ++
  tpl_scores ++ p_financial p ++
  tpl_slot ++ p_academic p ++
  tpl_slot ++ p_career p ++
  tpl_slot ++ p_personal p ++
  tpl_slot ++ p_practical p ++
  tpl_slot ++ p_support p ++
  tpl_strengths ++ p_strengths p ++
  tpl_gaps ++ p_gaps p ++
  tpl_recommendations ++ p_recommendations p ++
  tpl_countries ++ p_countries p ++
  tpl_footer.

(** The slug in the words of the specification: every run of white space
    replaced by a single hyphen, and the name in lower case. Both are
    written here on their own, without the functions of the code: the name
    is cut into its words and the runs of white space between them, and the
    lower case of a letter is looked up in the table of the capital
    letters. *)
Inductive token : Type :=
| Word (w : list string)
| Run.

(** The words of a text and the runs of white space between them, in
    order. A character joins the word, or the run, that follows it. *)
Fixpoint tokens (cs : list string) : list token :=
  match cs with
  | [] => []
  | c :: rest =>
      if isWhiteSpace c
      then match tokens rest with
           | Run :: ts => Run :: ts
           | ts => Run :: ts
           end
      else match tokens rest with
           | Word w :: ts => Word (c :: w) :: ts
           | ts => Word [c] :: ts
           end
  end.

(** Every run of white space replaced by a single hyphen: the words as
    they are, and a hyphen for each run. *)
Definition hyphenate (name : string) : string :=
  join (map (fun t => match t with
                      | Word w => join w
                      | Run => "-"
                      end)
          (tokens (characters name))).

(** The capital letters up to U+017F and, in the same order, their small
    letters. The capital I with a dot above, U+0130, is not among them: its
    lower case is two characters, the letter i and the dot above,
    U+0307. *)
Definition capital_letters : string :=
  "ABCDEFGHIJKLMNOPQRSTUVWXYZ" ++
  "ÀÁÂÃÄÅÆÇÈÉÊËÌÍÎÏÐÑÒÓÔÕÖØÙÚÛÜÝÞ" ++
  "ĀĂĄĆĈĊČĎĐĒĔĖĘĚĜĞĠĢĤĦĨĪĬĮĲĴĶĹĻĽĿ" ++
  "ŁŃŅŇŊŌŎŐŒŔŖŘŚŜŞŠŢŤŦŨŪŬŮŰŲŴŶŸŹŻŽ".

Definition small_letters : string :=
  "abcdefghijklmnopqrstuvwxyz" ++
  "àáâãäåæçèéêëìíîïðñòóôõöøùúûüýþ" ++
  "āăąćĉċčďđēĕėęěĝğġģĥħĩīĭįĳĵķĺļľŀ" ++
  "łńņňŋōŏőœŕŗřśŝşšţťŧũūŭůűųŵŷÿźżž".

Definition capitals : list (string * string) :=
  ("İ", "i" ++ utf8 0x307) ::
  combine (characters capital_letters) (characters small_letters).

(** The small letter of a capital letter; any other character is left as
    it is. *)
Definition small (ch : string) : string :=
  match lookup capitals ch with
  | Some s => s
  | None => ch
  end.

(** A capital letter. *)
Definition isUpper (ch : string) : bool :=
  match lookup capitals ch with
  | Some _ => true
  | None => false
  end.

(** Lower case by the table, for a text of characters up to U+017F; the
    lower case of any other text is the host's. *)
Definition lowercase {host : Host} (s : string) : string :=
  if forallb latin (characters s)
  then join (map small (characters s))
  else toLowerCase_host s.

(** The slug of a name. *)
Definition slugify {host : Host} (name : string) : string :=
  lowercase (hyphenate name).

(** A text without white space, a text of white space only, and a text
    without a capital letter. *)
Definition no_whitespace (s : string) : bool :=
  forallb (fun ch => negb (isWhiteSpace ch)) (characters s).

Definition all_whitespace (s : string) : bool :=
  forallb isWhiteSpace (characters s).

Definition no_upper (s : string) : bool :=
  forallb (fun ch => negb (isUpper ch)) (characters s).

(** A character of Latin-1, U+0000 to U+00FF. *)
Definition latin1 (ch : string) : bool :=
  match codePoint ch with
  | Some n => (n <? 256)%N
  | None => false
  end.

(** Every character of [s] is white space or of the class [class]. *)
Definition written_in (class : string -> bool) (s : string) : bool :=
  forallb (fun ch => isWhiteSpace ch || class ch) (characters s).

(** [s] holds only bytes that continue a character. *)
Fixpoint all_continue (s : string) : bool :=
  match s with
  | EmptyString => true
  | String c rest => continues c && all_continue rest
  end.

(** A character with all the bytes its first byte announces. *)
Definition complete (ch : string) : bool :=
  match ch with
  | EmptyString => false
  | String c tail => (String.length tail =? following c)%nat && all_continue tail
  end.

(** The bytes of [s], each as a character of its own. *)
Fixpoint singles (s : string) : list string :=
  match s with
  | EmptyString => []
  | String c rest => String c EmptyString :: singles rest
  end.

(** The words and runs of a name, written out with a hyphen for each run. *)
Definition written (ts : list token) : list string :=
  flat_map (fun t => match t with
                     | Word w => w
                     | Run => ["-"]
                     end) ts.

(** The two traces of a run that reaches [page.pdf]. *)
Definition failed_run : list event :=
  [BrowserLaunched; PageOpened; ContentLoaded; Waited 3000; PdfFailed; BrowserClosed].

Definition rendered_run : list event :=
  [BrowserLaunched; PageOpened; ContentLoaded; Waited 3000; PdfRendered; BrowserClosed].

(** The status of an answer with the trace behind it, as they can go
    together. *)
Definition outcomes : list (Z * list event) :=
  [ (400%Z, []);
    (500%Z, []);
    (500%Z, [BrowserLaunched]);
    (500%Z, [BrowserLaunched; PageOpened]);
    (200%Z, failed_run);
    (500%Z, failed_run);
    (200%Z, rendered_run);
    (500%Z, rendered_run) ].

(** The fields the fallback document reads, and the fields the page reads. *)
Definition fallback_fields : list string :=
  [ "Student Name"; "studentName"; "Overall Readiness Index";
    "Readiness Level"; "Strengths"; "Recommendations" ].

Definition page_fields : list string :=
  [ "Student Name"; "studentName"; "Scores"; "Overall Readiness Index";
    "Readiness Level"; "Strengths"; "Gaps"; "Recommendations";
    "Country Fit (Top 3)" ].

(** The card of the country string [country] at position [index]. *)
Definition country_card (country : string) (index : nat) : string :=
  country_open ++ decimal (Z.of_nat index + 1) ++
  country_flag ++ shown_flag country ++
  country_name ++ country ++
  country_score ++ decimal (100 - 15 * Z.of_nat index) ++
  country_close.

(** The cards of a list of country strings, from position [index]. *)
Fixpoint country_cards (countries : list string) (index : nat) : string :=
  match countries with
  | [] => EmptyString
  | country :: rest => country_card country index ++ country_cards rest (S index)
  end.

(** The item [item] of a recommendation section at position [index]. *)
Definition recommendation_item (item : string) (index : nat) : string :=
  item_open ++ decimal (Z.of_nat index + 1) ++ item_text ++ item ++ item_close.

(** ** The shape of an assessment result

    The record of the data model: an object whose fields, where present,
    are texts ([Student Name], [studentName], [Readiness Level],
    [Strengths], [Gaps], [Recommendations]), a number ([Overall Readiness
    Index]), an object of numbers ([Scores]) and an array of texts
    ([Country Fit (Top 3)]). *)

Definition is_number (j : JSON) : bool :=
  match j with
  | JNum _ => true
  | _ => false
  end.

Definition is_string (j : JSON) : bool :=
  match j with
  | JStr _ => true
  | _ => false
  end.

Definition text_or_absent (v : value) : bool :=
  match v with
  | None => true
  | Some j => is_string j
  end.

Definition number_or_absent (v : value) : bool :=
  match v with
  | None => true
  | Some j => is_number j
  end.

Definition numbers_or_absent (v : value) : bool :=
  match v with
  | None => true
  | Some (JObj props) => forallb (fun kv => is_number (snd kv)) props
  | Some _ => false
  end.

Definition texts_or_absent (v : value) : bool :=
  match v with
  | None => true
  | Some (JArr items) => forallb is_string items
  | Some _ => false
  end.

Definition assessment (results : JSON) : bool :=
  match results with
  | JObj _ =>
      text_or_absent (field results "Student Name") &&
      text_or_absent (field results "studentName") &&
      numbers_or_absent (field results "Scores") &&
      number_or_absent (field results "Overall Readiness Index") &&
      text_or_absent (field results "Readiness Level") &&
      text_or_absent (field results "Strengths") &&
      text_or_absent (field results "Gaps") &&
      text_or_absent (field results "Recommendations") &&
      texts_or_absent (field results "Country Fit (Top 3)")
  | _ => false
  end.

(** ** Sample inputs *)

(** A host for evaluating the model where the three open operations are
    not reached (numbers that are integers, scores that are numbers, names
    of characters up to U+017F). *)
Definition integer_host : Host :=
  {| StringToNumber := fun _ => NaN;
     NumberToString_host := fun _ => EmptyString;
     toLowerCase_host := fun s => s |}.

(** An integer as a JSON number. *)
Definition int (z : Z) : JSON := JNum (Fin (inject_Z z)).

(** A world in which every browser call succeeds and the PDF is [buffer]. *)
Definition printing (date : string) (buffer : list byte) : World :=
  {| today := date;
     launch := true;
     newPage := true;
     setContent := fun _ => true;
     pdf := fun _ => OK buffer |}.

(** A world in which only [page.pdf] fails. *)
Definition pdf_failing (date : string) : World :=
  {| today := date;
     launch := true;
     newPage := true;
     setContent := fun _ => true;
     pdf := fun _ => Throw |}.

(** A world in which [page.setContent] fails. *)
Definition content_failing (date : string) : World :=
  {| today := date;
     launch := true;
     newPage := true;
     setContent := fun _ => false;
     pdf := fun _ => Throw |}.

Definition jane_doe : JSON :=
  JObj [ ("Student Name", JStr "Jane Doe") ].

(** A body whose only score is a zero. *)
Definition zero_score : JSON :=
  JObj [ ("Student Name", JStr "Jane Doe");
         ("Scores", JObj [ ("Financial Planning", int 0) ]) ].

(** A body whose student name has a letter above U+00FF. *)
Definition lukasz : JSON :=
  JObj [ ("Student Name", JStr "Łukasz Nowak") ].

(** A body whose student name is a number. *)
Definition numbered : JSON :=
  JObj [ ("Student Name", int 42) ].

(** A full assessment result. *)
Definition full_result : JSON :=
  JObj [ ("Student Name", JStr "Jane Doe");
         ("Scores",
          JObj [ ("Financial Planning", int 85);
                 ("Academic Readiness", JNum (Fin (159 # 2)));
                 ("Career Alignment", int 59);
                 ("Personal & Cultural", int 40);
                 ("Practical Readiness", int 12);
                 ("Support System", int 100) ]);
         ("Overall Readiness Index", int 72);
         ("Readiness Level", JStr "Ready");
         ("Strengths", JStr "Strong academic record");
         ("Gaps", JStr "Funding plan");
         ("Recommendations", JStr "Apply for scholarships");
         ("Country Fit (Top 3)", JArr [ JStr "Canada"; JStr "Germany"; JStr "Ireland" ]) ].

(** [jane_doe] with fields the fallback document does not read. *)
Definition jane_doe_with_gaps : JSON :=
  JObj [ ("Student Name", JStr "Jane Doe");
         ("Gaps", JStr "Funding plan");
         ("Scores", JObj [ ("Support System", int 100) ]);
         ("Country Fit (Top 3)", JArr [ JStr "Canada" ]) ].

(** [jane_doe] with a field the page does not read. *)
Definition jane_doe_with_email : JSON :=
  JObj [ ("Student Name", JStr "Jane Doe");
         ("email", JStr "jane@example.org") ].

(** ** Tactics *)

(** [e] is not itself a case distinction. *)
Ltac plain e :=
  lazymatch e with
  | context [match _ with _ => _ end] => fail
  | _ => idtac
  end.

(** Splits a run of the handler into its paths. *)
Ltac paths H :=
  cbv [POST caught render andThen eval emit await ret newResponse] in H;
  repeat match type of H with
         | context [match ?e with _ => _ end] =>
             plain e; destruct e eqn:?; cbv beta iota in H
         end;
  injection H as <- <-.

(** * Proofs

    ** Text and completions *)

Lemma append_assoc (a b c : string) : (a ++ b) ++ c = a ++ b ++ c.
Proof.
  induction a as [|x a IH]; simpl; [reflexivity | now rewrite IH].
Qed.

Lemma occurs_here (needle post : string) : occurs needle (needle ++ post).
Proof.
  exists EmptyString, post. reflexivity.
Qed.

Lemma occurs_later (needle pre hay : string) :
  occurs needle hay -> occurs needle (pre ++ hay).
Proof.
  intros (a & b & ->). exists (pre ++ a), b. now rewrite append_assoc.
Qed.

Lemma occurs_start3 (a b c post : string) :
  occurs (a ++ b ++ c) (a ++ b ++ c ++ post).
Proof.
  exists EmptyString, post. simpl. now rewrite !append_assoc.
Qed.

(** Finds a piece in a text written as a chain of [++]: a piece of three
    parts, or one part of the chain. *)
Ltac find_piece :=
  repeat first [ apply occurs_start3 | apply occurs_here | apply occurs_later ].

Lemma prefix_split (needle hay : string) :
  prefix needle hay = true <-> exists post, hay = needle ++ post.
Proof.
  revert hay. induction needle as [|c needle IH]; intros hay.
  - split; [exists hay; reflexivity | destruct hay; reflexivity].
  - destruct hay as [|d hay]; simpl;
      [split; [discriminate | intros (p & Hp); discriminate] |].
    destruct (ascii_dec c d) as [->|Hcd].
    + rewrite IH. split; intros (p & Hp); exists p; [now rewrite Hp | now inversion Hp].
    + split; [discriminate |].
      intros (p & Hp). simpl in Hp. injection Hp as E _. congruence.
Qed.

Lemma includes_occurs (hay needle : string) :
  includes hay needle = true <-> occurs needle hay.
Proof.
  induction hay as [|c hay IH].
  - cbn [includes]. rewrite orb_false_r, prefix_split. split.
    + intros (p & Hp). exists EmptyString, p. exact Hp.
    + intros (a & b & H). destruct a; [exists b; exact H | discriminate].
  - cbn [includes]. rewrite orb_true_iff, IH, prefix_split. split.
    + intros [(p & Hp) | (a & b & Hab)].
      * exists EmptyString, p. exact Hp.
      * exists (String c a), b. simpl. now rewrite Hab.
    + intros (a & b & H). destruct a as [|d a].
      * left. exists b. exact H.
      * right. exists a, b. simpl in H. now inversion H.
Qed.

Lemma not_included (hay needle : string) :
  includes hay needle = false -> ~ occurs needle hay.
Proof.
  intros H Hocc. apply includes_occurs in Hocc. congruence.
Qed.

Lemma bind_OK {A B : Type} (r : result A) (k : A -> result B) (b : B) :
  bind r k = OK b -> exists a, r = OK a /\ k a = OK b.
Proof.
  destruct r as [a|]; simpl; [intros H; exists a; auto | discriminate].
Qed.

(** Takes a chain of binds that completed apart, one step at a time. *)
Ltac bind_inv H :=
  repeat (let x := fresh "x" in
          let E := fresh "E" in
          apply bind_OK in H as (x & E & H); cbv beta in H).

Lemma Qle_bool_inject (a b : Z) : Qle_bool (inject_Z a) (inject_Z b) = (a <=? b)%Z.
Proof.
  unfold Qle_bool, inject_Z. simpl. now rewrite !Z.mul_1_r.
Qed.

(** ** Characters *)

Lemma join_cons (x : string) (l : list string) : join (x :: l) = x ++ join l.
Proof. reflexivity. Qed.

Lemma join_app (a b : list string) : join (a ++ b) = join a ++ join b.
Proof.
  induction a as [|x a IH]; [reflexivity |].
  cbn [app]. now rewrite !join_cons, IH, append_assoc.
Qed.

Lemma continuation_join (n : nat) (l : list string) :
  fst (continuation n l) ++ join (snd (continuation n l)) = join l.
Proof.
  revert l. induction n as [|n IH]; intros l; [destruct l; reflexivity |].
  destruct l as [|[|c [|d x]] l]; try reflexivity.
  cbn [continuation]. destruct (continues c); [| reflexivity].
  specialize (IH l). destruct (continuation n l) as [tail others].
  cbn [fst snd] in *. cbn [join fold_right append]. fold (join l).
  now rewrite <- IH.
Qed.

(** The characters of a text are the text, cut. *)
Lemma join_characters (s : string) : join (characters s) = s.
Proof.
  induction s as [|c s IH]; [reflexivity |].
  cbn [characters].
  pose proof (continuation_join (following c) (characters s)) as H.
  destruct (continuation (following c) (characters s)) as [tail others].
  cbn [fst snd] in H. cbn [join fold_right append]. fold (join others).
  now rewrite H, IH.
Qed.

Lemma continues_following (c : ascii) : continues c = true -> following c = 0%nat.
Proof.
  unfold continues, following. intros H.
  apply andb_true_iff in H as (_ & H). now rewrite H.
Qed.

Lemma characters_tail (tail s : string) :
  all_continue tail = true ->
  characters (tail ++ s) = (singles tail ++ characters s)%list.
Proof.
  induction tail as [|c tail IH]; intros H; [reflexivity |].
  cbn in H. apply andb_true_iff in H as (Hc & H).
  cbn [append characters singles]. rewrite (continues_following _ Hc).
  cbn [continuation]. now rewrite IH.
Qed.

Lemma continuation_singles (tail : string) (l : list string) :
  all_continue tail = true ->
  continuation (String.length tail) (singles tail ++ l) = (tail, l).
Proof.
  revert l. induction tail as [|c tail IH]; intros l H.
  - destruct l; reflexivity.
  - cbn in H. apply andb_true_iff in H as (Hc & H).
    cbn [String.length singles app continuation]. now rewrite Hc, IH.
Qed.

Lemma characters_complete (ch s : string) :
  complete ch = true -> characters (ch ++ s) = ch :: characters s.
Proof.
  destruct ch as [|c tail]; [discriminate |]. intros H.
  cbn in H. apply andb_true_iff in H as (Hn & H). apply Nat.eqb_eq in Hn.
  cbn [append characters]. rewrite (characters_tail _ _ H), <- Hn.
  now rewrite (continuation_singles _ _ H).
Qed.

Lemma characters_join_app (l : list string) (s : string) :
  forallb complete l = true ->
  characters (join l ++ s) = (l ++ characters s)%list.
Proof.
  induction l as [|ch l IH]; intros H; [reflexivity |].
  cbn in H. apply andb_true_iff in H as (Hc & H).
  cbn [join fold_right]. fold (join l).
  rewrite append_assoc, (characters_complete _ _ Hc), (IH H). reflexivity.
Qed.

Lemma append_empty_r (a : string) : a ++ EmptyString = a.
Proof.
  induction a as [|x a IH]; simpl; [reflexivity | now rewrite IH].
Qed.

(** Characters that are complete are found again in their text. *)
Lemma characters_join (l : list string) :
  forallb complete l = true -> characters (join l) = l.
Proof.
  intros H. rewrite <- (append_empty_r (join l)), (characters_join_app _ _ H).
  apply app_nil_r.
Qed.

Lemma characters_app (a b : string) :
  forallb complete (characters a) = true ->
  characters (a ++ b) = (characters a ++ characters b)%list.
Proof.
  intros H. rewrite <- (join_characters a) at 1. now apply characters_join_app.
Qed.

Lemma codePoint_complete (ch : string) (n : N) :
  codePoint ch = Some n -> complete ch = true.
Proof.
  destruct ch as [|a [|b [|c x]]]; try discriminate; cbn [codePoint complete].
  - destruct (N_of_ascii a <? 128)%N eqn:E; [| discriminate]. intros _.
    unfold following. apply N.ltb_lt in E.
    assert ((N_of_ascii a <? 192)%N = true) as -> by (apply N.ltb_lt; lia).
    reflexivity.
  - destruct ((194 <=? N_of_ascii a) && (N_of_ascii a <? 224))%N eqn:E;
      [| discriminate].
    destruct (continues b) eqn:Eb; [| discriminate]. intros _.
    apply andb_true_iff in E as (E1 & E2).
    apply N.leb_le in E1. unfold following. rewrite E2.
    assert ((N_of_ascii a <? 192)%N = false) as -> by (apply N.ltb_ge; lia).
    cbn. now rewrite Eb.
Qed.

Lemma ascii_of_code (a : ascii) (n : N) : n = N_of_ascii a -> ascii_of_N n = a.
Proof.
  intros ->. apply ascii_N_embedding.
Qed.

(** A character below U+0800 is the character of its code point. *)
Lemma codePoint_utf8 (ch : string) (n : N) :
  codePoint ch = Some n -> ch = utf8 n.
Proof.
  destruct ch as [|a [|b [|c x]]]; try discriminate; cbn [codePoint].
  - destruct (N_of_ascii a <? 128)%N eqn:E; [| discriminate].
    intros H. injection H as <-. unfold utf8. rewrite E.
    now rewrite ascii_N_embedding.
  - destruct ((194 <=? N_of_ascii a) && (N_of_ascii a <? 224))%N eqn:E;
      [| discriminate].
    destruct (continues b) eqn:Eb; [| discriminate].
    intros H. injection H as <-.
    apply andb_true_iff in E as (E1 & E2).
    apply N.leb_le in E1. apply N.ltb_lt in E2.
    unfold continues in Eb. apply andb_true_iff in Eb as (E3 & E4).
    apply N.leb_le in E3. apply N.ltb_lt in E4.
    set (x := N_of_ascii a) in *. set (y := N_of_ascii b) in *.
    assert (((x - 192) * 64 + (y - 128)) / 64 = x - 192)%N as Hq
      by (symmetry; apply N.div_unique with (y - 128)%N; lia).
    assert (((x - 192) * 64 + (y - 128)) mod 64 = y - 128)%N as Hr
      by (symmetry; apply N.mod_unique with (x - 192)%N; lia).
    unfold utf8.
    assert (((x - 192) * 64 + (y - 128) <? 128)%N = false) as ->
      by (apply N.ltb_ge; lia).
    assert (((x - 192) * 64 + (y - 128) <? 2048)%N = true) as ->
      by (apply N.ltb_lt; lia).
    rewrite Hq, Hr.
    rewrite (ascii_of_code a), (ascii_of_code b); [reflexivity | subst y; lia | subst x; lia].
Qed.

(** What holds of the character of every code point up to U+017F holds of
    every character up to U+017F. *)
Lemma latin_enumerated (P : string -> bool) :
  forallb (fun k => P (utf8 (N.of_nat k))) (seq 0 384) = true ->
  forall ch, latin ch = true -> P ch = true.
Proof.
  intros H ch Hl. unfold latin in Hl.
  destruct (codePoint ch) as [n|] eqn:E; [| discriminate].
  apply N.ltb_lt in Hl. apply codePoint_utf8 in E. subst ch.
  rewrite forallb_forall in H. specialize (H (N.to_nat n)).
  rewrite N2Nat.id in H. apply H. apply in_seq. lia.
Qed.

Lemma isWhiteSpace_utf8 (ch : string) :
  isWhiteSpace ch = true -> exists n, In n WhiteSpace /\ ch = utf8 n.
Proof.
  intros H. apply existsb_exists in H as (n & Hn & H).
  apply String.eqb_eq in H. now exists n.
Qed.

Lemma isWhiteSpace_complete (ch : string) :
  isWhiteSpace ch = true -> complete ch = true.
Proof.
  intros H. apply isWhiteSpace_utf8 in H as (n & Hn & ->).
  assert (forallb (fun n => complete (utf8 n)) WhiteSpace = true) as Hall
    by (vm_compute; reflexivity).
  rewrite forallb_forall in Hall. now apply Hall.
Qed.

Lemma latin_complete (ch : string) : latin ch = true -> complete ch = true.
Proof.
  unfold latin. destruct (codePoint ch) eqn:E; [| discriminate].
  intros _. now apply codePoint_complete in E.
Qed.

Lemma latin1_latin (ch : string) : latin1 ch = true -> latin ch = true.
Proof.
  unfold latin1, latin. destruct (codePoint ch); [| discriminate].
  intros H. apply N.ltb_lt in H. apply N.ltb_lt. lia.
Qed.

Lemma headerCharacter_latin1 (ch : string) :
  headerCharacter ch = true -> latin1 ch = true.
Proof.
  unfold headerCharacter, latin1. destruct (codePoint ch); [| discriminate].
  intros H. now rewrite !andb_true_iff in H.
Qed.

(** ** Lower case *)

(** The lower case the code computes is the small letter of the table. *)
Lemma lower_is_small (ch : string) : latin ch = true -> lower ch = small ch.
Proof.
  intros H. apply String.eqb_eq. revert ch H.
  apply (latin_enumerated (fun ch => (lower ch =? small ch)%string)).
  vm_compute. reflexivity.
Qed.

Lemma lower_fixes (ch : string) :
  latin ch = true -> isUpper ch = false -> lower ch = ch.
Proof.
  intros H Hu. apply String.eqb_eq.
  assert (isUpper ch || (lower ch =? ch)%string = true) as Hb;
    [| rewrite Hu in Hb; exact Hb].
  clear Hu. revert ch H.
  apply (latin_enumerated (fun ch => isUpper ch || (lower ch =? ch)%string)).
  vm_compute. reflexivity.
Qed.

Lemma lower_moves (ch : string) :
  latin ch = true -> lower ch = ch -> isUpper ch = false.
Proof.
  intros H Hl. apply String.eqb_eq in Hl.
  assert (negb (lower ch =? ch)%string || negb (isUpper ch) = true) as Hb;
    [| rewrite Hl in Hb; now apply negb_true_iff in Hb].
  clear Hl. revert ch H.
  apply (latin_enumerated
           (fun ch => negb (lower ch =? ch)%string || negb (isUpper ch))).
  vm_compute. reflexivity.
Qed.

(** What the lower case of a Latin-1 character that is not white space is:
    one character of Latin-1 again, no white space, no capital letter, and
    its own lower case. *)
Lemma lower_latin1 (ch : string) :
  latin1 ch = true ->
  isWhiteSpace ch = false ->
  latin1 (lower ch) = true /\
  isWhiteSpace (lower ch) = false /\
  isUpper (lower ch) = false.
Proof.
  intros H Hw.
  assert (negb (latin1 ch) || isWhiteSpace ch ||
          latin1 (lower ch) && negb (isWhiteSpace (lower ch)) &&
          negb (isUpper (lower ch)) = true) as Hb.
  { apply latin1_latin in H. clear Hw. revert ch H.
    apply (latin_enumerated
             (fun ch => negb (latin1 ch) || isWhiteSpace ch ||
                        latin1 (lower ch) && negb (isWhiteSpace (lower ch)) &&
                        negb (isUpper (lower ch)))).
    vm_compute. reflexivity. }
  rewrite H, Hw in Hb. cbn [negb orb] in Hb.
  rewrite !andb_true_iff, !negb_true_iff in Hb. tauto.
Qed.

Lemma lower_headerCharacter (ch : string) :
  headerCharacter ch = true ->
  isWhiteSpace ch = false ->
  headerCharacter (lower ch) = true.
Proof.
  intros H Hw.
  assert (negb (headerCharacter ch) || isWhiteSpace ch ||
          headerCharacter (lower ch) = true) as Hb.
  { apply headerCharacter_latin1, latin1_latin in H. clear Hw. revert ch H.
    apply (latin_enumerated
             (fun ch => negb (headerCharacter ch) || isWhiteSpace ch ||
                        headerCharacter (lower ch))).
    vm_compute. reflexivity. }
  now rewrite H, Hw in Hb.
Qed.

(** ** The white space of a name *)

Lemma replace_runs_no_whitespace (in_run : bool) (cs : list string) :
  forallb (fun ch => negb (isWhiteSpace ch)) (replace_runs in_run cs) = true.
Proof.
  revert in_run. induction cs as [|c cs IH]; intros in_run; [reflexivity |].
  cbn [replace_runs]. destruct (isWhiteSpace c) eqn:E.
  - destruct in_run; [apply IH |]. cbn [forallb]. now rewrite IH.
  - cbn [forallb]. now rewrite E, IH.
Qed.

(** Characters without white space are left as they are. *)
Lemma replace_runs_plain (in_run : bool) (cs : list string) :
  forallb (fun ch => negb (isWhiteSpace ch)) cs = true ->
  replace_runs in_run cs = cs.
Proof.
  revert in_run. induction cs as [|c cs IH]; intros in_run H; [reflexivity |].
  cbn [forallb] in H. apply andb_true_iff in H as (Hc & Hs).
  cbn [replace_runs]. apply negb_true_iff in Hc. rewrite Hc.
  now rewrite IH.
Qed.

(** What is left is a hyphen or a character of the name that is not white
    space. *)
Lemma replace_runs_keeps (P : string -> bool) (in_run : bool) (cs : list string) :
  P "-" = true ->
  forallb (fun ch => isWhiteSpace ch || P ch) cs = true ->
  forallb (fun ch => P ch && negb (isWhiteSpace ch)) (replace_runs in_run cs) = true.
Proof.
  intros Hh. revert in_run. induction cs as [|c cs IH]; intros in_run H; [reflexivity |].
  cbn [forallb] in H. apply andb_true_iff in H as (Hc & H).
  cbn [replace_runs]. destruct (isWhiteSpace c) eqn:E.
  - destruct in_run; [now apply IH |]. cbn [forallb]. rewrite Hh.
    change (isWhiteSpace "-") with false. now apply IH.
  - cbn [forallb orb] in *. rewrite Hc, E. now apply IH.
Qed.

Lemma replace_runs_shorter (in_run : bool) (cs : list string) :
  (length (replace_runs in_run cs) <= length cs)%nat.
Proof.
  revert in_run. induction cs as [|c cs IH]; intros in_run; [apply Nat.le_refl |].
  cbn [replace_runs].
  destruct (isWhiteSpace c); [destruct in_run |]; cbn [length];
    first [apply le_n_S, IH | apply Nat.le_le_succ_r, IH].
Qed.

Lemma replace_runs_skips (run rest : list string) :
  forallb isWhiteSpace run = true ->
  replace_runs true (run ++ rest) = replace_runs true rest.
Proof.
  induction run as [|c run IH]; intros H; [reflexivity |].
  cbn [forallb] in H. apply andb_true_iff in H as (Hc & Hr).
  cbn [app replace_runs]. rewrite Hc. now apply IH.
Qed.

(** A run of white space after a word becomes one hyphen, however long the
    run is. *)
Lemma replace_runs_one_hyphen (word run rest : list string) :
  forallb (fun ch => negb (isWhiteSpace ch)) word = true ->
  forallb isWhiteSpace run = true ->
  run <> [] ->
  replace_runs false (word ++ run ++ rest) =
  (word ++ "-" :: replace_runs true rest)%list.
Proof.
  intros Hw Hrun Hne. induction word as [|d word IH].
  - destruct run as [|c run]; [contradiction |].
    cbn [forallb] in Hrun. apply andb_true_iff in Hrun as (Hc & Hrun).
    cbn [app replace_runs]. rewrite Hc. now rewrite (replace_runs_skips _ _ Hrun).
  - cbn [forallb] in Hw. apply andb_true_iff in Hw as (Hd & Hw).
    apply negb_true_iff in Hd.
    cbn [app replace_runs]. rewrite Hd. now rewrite (IH Hw).
Qed.

Lemma replace_runs_tokens (cs : list string) :
  replace_runs false cs = written (tokens cs) /\
  replace_runs true cs =
  written (match tokens cs with
           | Run :: ts => ts
           | ts => ts
           end).
Proof.
  induction cs as [|c cs (IH1 & IH2)]; [split; reflexivity |].
  cbn [replace_runs tokens]. destruct (isWhiteSpace c).
  - rewrite IH2. destruct (tokens cs) as [|[w|] ts]; split; reflexivity.
  - rewrite IH1. destruct (tokens cs) as [|[w|] ts]; split; reflexivity.
Qed.

Lemma join_written (ts : list token) :
  join (written ts) =
  join (map (fun t => match t with
                      | Word w => join w
                      | Run => "-"
                      end) ts).
Proof.
  induction ts as [|[w|] ts IH]; [reflexivity | |].
  - change (written (Word w :: ts)) with (w ++ written ts)%list.
    cbn [map]. now rewrite join_app, join_cons, IH.
  - change (written (Run :: ts)) with ("-" :: written ts).
    cbn [map]. now rewrite !join_cons, IH.
Qed.

(** The replacement of the code gives what the words of the specification
    say: the words of the name with one hyphen for every run. *)
Lemma replace_whitespace_hyphenate (name : string) :
  replace_whitespace name = hyphenate name.
Proof.
  unfold replace_whitespace, hyphenate.
  rewrite (proj1 (replace_runs_tokens (characters name))). apply join_written.
Qed.

Lemma toLowerCase_lowercase {host : Host} (s : string) :
  toLowerCase s = lowercase s.
Proof.
  unfold toLowerCase, lowercase.
  destruct (forallb latin (characters s)) eqn:E; [| reflexivity].
  f_equal. apply map_ext_in. intros ch Hin.
  rewrite forallb_forall in E. now apply lower_is_small, E.
Qed.

(** The slug of the code is the slug of the specification. *)
Lemma slug_is_slugify {host : Host} (name : string) :
  toLowerCase (replace_whitespace name) = slugify name.
Proof.
  unfold slugify. now rewrite replace_whitespace_hyphenate, toLowerCase_lowercase.
Qed.

(** ** Names in Latin-1 *)

Lemma forallb_impl {A : Type} (P Q : A -> bool) (l : list A) :
  (forall x, P x = true -> Q x = true) ->
  forallb P l = true -> forallb Q l = true.
Proof.
  intros H Hl. rewrite forallb_forall in *. auto.
Qed.

Lemma written_in_complete (class : string -> bool) (s : string) :
  (forall ch, class ch = true -> complete ch = true) ->
  written_in class s = true ->
  forallb complete (characters s) = true.
Proof.
  intros H. apply forallb_impl. intros ch Hch.
  apply orb_true_iff in Hch as [Hw | Hc];
    [now apply isWhiteSpace_complete | now apply H].
Qed.

Lemma latin1_complete (ch : string) : latin1 ch = true -> complete ch = true.
Proof.
  intros H. now apply latin_complete, latin1_latin.
Qed.

(** The characters of the slug of a name in Latin-1: the lower case of what
    the replacement leaves. *)
Lemma slug_characters {host : Host} (name : string) :
  written_in latin1 name = true ->
  toLowerCase (replace_whitespace name) =
    join (map lower (replace_runs false (characters name))) /\
  characters (toLowerCase (replace_whitespace name)) =
    map lower (replace_runs false (characters name)).
Proof.
  intros H. unfold written_in in H.
  pose proof (replace_runs_keeps latin1 false (characters name) eq_refl H) as Hl.
  set (l := replace_runs false (characters name)) in *.
  assert (forallb complete l = true) as Hc.
  { revert Hl. apply forallb_impl. intros ch Hch.
    apply andb_true_iff in Hch as (Hch & _). now apply latin1_complete. }
  assert (forallb latin l = true) as Hlat.
  { revert Hl. apply forallb_impl. intros ch Hch.
    apply andb_true_iff in Hch as (Hch & _). now apply latin1_latin. }
  assert (toLowerCase (replace_whitespace name) = join (map lower l)) as ->.
  { unfold toLowerCase, replace_whitespace. fold l.
    now rewrite (characters_join _ Hc), Hlat. }
  split; [reflexivity |].
  apply characters_join. rewrite forallb_forall in *.
  intros x Hx. apply in_map_iff in Hx as (ch & <- & Hin).
  specialize (Hl _ Hin). apply andb_true_iff in Hl as (H1 & Hw).
  apply negb_true_iff in Hw.
  now apply latin1_complete, (lower_latin1 ch H1 Hw).
Qed.

Lemma map_fixes {A : Type} (f : A -> A) (l : list A) :
  map f l = l -> forall x, In x l -> f x = x.
Proof.
  induction l as [|a l IH]; intros H x Hx; [contradiction |].
  cbn [map] in H. injection H as Ha Hl. destruct Hx as [<- | Hx]; auto.
Qed.

(** A name without white space and without a capital letter is its own
    slug. *)
Lemma clean_name_is_its_slug {host : Host} (name : string) :
  written_in latin1 name = true ->
  no_whitespace name = true ->
  no_upper name = true ->
  toLowerCase (replace_whitespace name) = name.
Proof.
  intros H Hw Hu. rewrite (proj1 (slug_characters name H)).
  unfold no_whitespace in Hw. rewrite (replace_runs_plain _ _ Hw).
  rewrite <- (join_characters name) at 2. f_equal.
  rewrite <- (map_id (characters name)) at 2. apply map_ext_in.
  intros ch Hin. unfold written_in, no_upper in *.
  rewrite forallb_forall in H, Hw, Hu.
  specialize (H _ Hin). specialize (Hw _ Hin). specialize (Hu _ Hin).
  apply negb_true_iff in Hw, Hu. rewrite Hw in H. cbn [orb] in H.
  apply lower_fixes; [now apply latin1_latin | exact Hu].
Qed.

Lemma lower_hyphen : lower "-" = "-".
Proof. reflexivity. Qed.

(** Where the lower case of what the replacement leaves is the name, the
    name had no white space. *)
Lemma replace_runs_fixed (in_run : bool) (cs : list string) :
  map lower (replace_runs in_run cs) = cs ->
  forallb (fun ch => negb (isWhiteSpace ch)) cs = true.
Proof.
  revert in_run. induction cs as [|c cs IH]; intros in_run H; [reflexivity |].
  cbn [replace_runs] in H. cbn [forallb]. destruct (isWhiteSpace c) eqn:E.
  - exfalso. destruct in_run.
    + pose proof (replace_runs_shorter true cs) as Hlen.
      apply (f_equal (@length string)) in H.
      rewrite length_map in H. cbn [length] in H. lia.
    + cbn [map] in H. injection H as Hc _. rewrite lower_hyphen in Hc.
      subst c. discriminate E.
  - cbn [map] in H. injection H as _ H. cbn [negb andb]. now apply IH in H.
Qed.

(** A name that is its own slug has no white space and no capital
    letter. *)
Lemma slug_of_itself_is_clean {host : Host} (name : string) :
  written_in latin1 name = true ->
  toLowerCase (replace_whitespace name) = name ->
  no_whitespace name = true /\ no_upper name = true.
Proof.
  intros H Hs.
  pose proof (proj2 (slug_characters name H)) as Hc. rewrite Hs in Hc.
  symmetry in Hc. pose proof (replace_runs_fixed _ _ Hc) as Hw.
  split; [exact Hw |].
  rewrite (replace_runs_plain _ _ Hw) in Hc.
  unfold no_upper. apply forallb_forall. intros ch Hin.
  apply negb_true_iff. apply lower_moves; [| now apply (map_fixes _ _ Hc)].
  unfold written_in, no_whitespace in *. rewrite forallb_forall in H, Hw.
  specialize (H _ Hin). specialize (Hw _ Hin). apply negb_true_iff in Hw.
  rewrite Hw in H. now apply latin1_latin.
Qed.

(** The slug of a name in Latin-1 is in Latin-1, without white space and
    without a capital letter. *)
Lemma slug_is_clean {host : Host} (name : string) :
  written_in latin1 name = true ->
  written_in latin1 (toLowerCase (replace_whitespace name)) = true /\
  no_whitespace (toLowerCase (replace_whitespace name)) = true /\
  no_upper (toLowerCase (replace_whitespace name)) = true.
Proof.
  intros H. unfold written_in, no_whitespace, no_upper.
  rewrite (proj2 (slug_characters name H)).
  pose proof (replace_runs_keeps latin1 false (characters name) eq_refl H) as Hl.
  rewrite forallb_forall in Hl.
  assert (forall x, In x (map lower (replace_runs false (characters name))) ->
          latin1 x = true /\ isWhiteSpace x = false /\ isUpper x = false) as Hall.
  { intros x Hx. apply in_map_iff in Hx as (ch & <- & Hin).
    specialize (Hl _ Hin). apply andb_true_iff in Hl as (H1 & Hw).
    apply negb_true_iff in Hw. now apply lower_latin1. }
  repeat split; apply forallb_forall; intros x Hx;
    destruct (Hall x Hx) as (H1 & H2 & H3); now rewrite ?H1, ?H2, ?H3, ?orb_true_r.
Qed.

(** ** Header values *)

Lemma headerCharacter_complete (ch : string) :
  headerCharacter ch = true -> complete ch = true.
Proof.
  intros H. now apply latin1_complete, headerCharacter_latin1.
Qed.

Lemma isHeaderValue_app (a b : string) :
  isHeaderValue a = true -> isHeaderValue (a ++ b) = isHeaderValue b.
Proof.
  intros H. unfold isHeaderValue in *.
  rewrite characters_app, forallb_app, H; [reflexivity |].
  revert H. apply forallb_impl, headerCharacter_complete.
Qed.

Lemma isHeaderValue_digits (d : Decimal.uint) :
  isHeaderValue (NilEmpty.string_of_uint d) = true.
Proof.
  induction d as [|d IH|d IH|d IH|d IH|d IH|d IH|d IH|d IH|d IH|d IH];
    [reflexivity | | | | | | | | | |];
    cbn [NilEmpty.string_of_uint];
    match goal with
    | |- isHeaderValue (String ?c ?s) = true =>
        change (String c s) with (String c EmptyString ++ s);
        rewrite isHeaderValue_app; [exact IH | reflexivity]
    end.
Qed.

(** The decimal digits of an integer are a header value. *)
Lemma isHeaderValue_decimal (z : Z) : isHeaderValue (decimal z) = true.
Proof.
  unfold decimal, NilZero.string_of_int.
  destruct (Z.to_int z) as [d | d].
  - unfold NilZero.string_of_uint. destruct d; try apply isHeaderValue_digits.
    reflexivity.
  - change (String "-" (NilZero.string_of_uint d))
      with (String "-" EmptyString ++ NilZero.string_of_uint d).
    rewrite isHeaderValue_app; [| reflexivity].
    unfold NilZero.string_of_uint. destruct d; try apply isHeaderValue_digits.
    reflexivity.
Qed.

(** The file name of a name whose characters are white space or bytes
    other than U+0000 is a header value. *)
Lemma file_name_is_a_header_value {host : Host} (prefix suffix name : string) :
  isHeaderValue prefix = true ->
  isHeaderValue suffix = true ->
  written_in headerCharacter name = true ->
  isHeaderValue (prefix ++ toLowerCase (replace_whitespace name) ++ suffix) = true.
Proof.
  intros Hp Hs H.
  assert (written_in latin1 name = true) as H1.
  { revert H. apply forallb_impl. intros ch Hch.
    apply orb_true_iff in Hch as [-> | Hch]; [reflexivity |].
    rewrite (headerCharacter_latin1 _ Hch). apply orb_true_r. }
  rewrite (isHeaderValue_app _ _ Hp), isHeaderValue_app; [exact Hs |].
  unfold isHeaderValue. rewrite (proj2 (slug_characters name H1)).
  pose proof (replace_runs_keeps headerCharacter false (characters name) eq_refl H)
    as Hl.
  rewrite forallb_forall in Hl. apply forallb_forall.
  intros x Hx. apply in_map_iff in Hx as (ch & <- & Hin).
  specialize (Hl _ Hin). apply andb_true_iff in Hl as (Hh & Hw).
  apply negb_true_iff in Hw. now apply lower_headerCharacter.
Qed.

(** ** Reading a field with a default *)

Lemma get_or_else (results : JSON) (k : string) (d : value) :
  results <> JNull ->
  get (Some results) k ||| OK d =
  OK (if truthy (field results k) then field results k else d).
Proof.
  intros Hn. unfold or_else, get, bind.
  destruct results; try contradiction;
    destruct (truthy (field _ k)); reflexivity.
Qed.

Lemma falsy_takes_default (results : JSON) (k : string) (d : result value) (v : value) :
  get (Some results) k ||| d = OK v ->
  truthy (field results k) = false ->
  d = OK v.
Proof.
  unfold or_else, get, bind. intros H Hf.
  destruct results; try discriminate; rewrite Hf in H; exact H.
Qed.

Lemma truthy_is_taken (results : JSON) (k : string) (d : result value) (v : value) :
  get (Some results) k ||| d = OK v ->
  truthy (field results k) = true ->
  v = field results k.
Proof.
  unfold or_else, get, bind. intros H Ht.
  destruct results; try discriminate; rewrite Ht in H; congruence.
Qed.

Lemma default_is_rendered {host : Host} (results : JSON) (k d s : string) :
  renders (get (Some results) k ||| text d) s ->
  truthy (field results k) = false ->
  s = d.
Proof.
  intros (v & Hv & Hs) Hf.
  apply falsy_takes_default in Hv; [| exact Hf].
  unfold text in Hv. injection Hv as <-. cbn in Hs. congruence.
Qed.

Lemma absent_or_zero_falsy (v : value) : absent_or_zero v -> truthy v = false.
Proof.
  intros [-> | (x & -> & Hx)]; [reflexivity |].
  cbn. apply Qeq_bool_iff in Hx. now rewrite Hx.
Qed.

Lemma givenName_defined (results : JSON) :
  results <> JNull ->
  givenName results =
  OK (if named results "Student Name" then field results "Student Name"
      else field results "studentName").
Proof.
  intros H. unfold givenName, or_else, named, get, bind.
  destruct results; try contradiction;
    destruct (truthy (field _ "Student Name")); reflexivity.
Qed.

Lemma givenName_not_null (results : JSON) (v : value) :
  givenName results = OK v -> results <> JNull.
Proof.
  intros H ->. discriminate.
Qed.

Lemma missingStudentName_defined (results : JSON) :
  results <> JNull ->
  missingStudentName results =
  OK (negb (named results "Student Name") && negb (named results "studentName")).
Proof.
  intros H. unfold missingStudentName, named, get, bind.
  destruct results; try contradiction;
    destruct (truthy (field _ "Student Name")); reflexivity.
Qed.

(** ** The score card *)

Lemma barClass_round (x : Q) :
  barClass (Math_round (Fin x)) = colour (Qfloor (x + (1 # 2))%Q).
Proof.
  unfold barClass, colour, Math_round, number_ge.
  now rewrite !Qle_bool_inject.
Qed.

Lemma generateScoreCard_number {host : Host} (label weight : string) (x : Q) :
  generateScoreCard label (Some (JNum (Fin x))) weight =
  OK (card label
        (Number_toString (Fin (inject_Z (Qfloor (x + (1 # 2))%Q))))
        (colour (Qfloor (x + (1 # 2))%Q)) weight).
Proof.
  unfold generateScoreCard, card, ToNumber, bind.
  now rewrite barClass_round.
Qed.

(** C5. [generateScoreCard] picks the colour by exact thresholds on the
    rounded score, and prints the rounded score as it is: for every score
    the class is [colour] of [Math.round(score)] and the text before each
    percent sign is that integer; 80 is excellent, 79 and 60 are good, 59
    and 40 are average, 39 and 0 are weak; 79.5 rounds to 80; 150 and -5
    are printed as 150 and -5, not clamped. *)
Theorem score_card_colour_and_percentage {host : Host} (label weight : string) :
  (forall x : Q,
     generateScoreCard label (Some (JNum (Fin x))) weight =
     OK (card label
           (Number_toString (Fin (inject_Z (Qfloor (x + (1 # 2))%Q))))
           (colour (Qfloor (x + (1 # 2))%Q)) weight)) /\
  generateScoreCard label (Some (int 80)) weight = OK (card label "80" "excellent" weight) /\
  generateScoreCard label (Some (int 79)) weight = OK (card label "79" "good" weight) /\
  generateScoreCard label (Some (int 60)) weight = OK (card label "60" "good" weight) /\
  generateScoreCard label (Some (int 59)) weight = OK (card label "59" "average" weight) /\
  generateScoreCard label (Some (int 40)) weight = OK (card label "40" "average" weight) /\
  generateScoreCard label (Some (int 39)) weight = OK (card label "39" "weak" weight) /\
  generateScoreCard label (Some (int 0)) weight = OK (card label "0" "weak" weight) /\
  generateScoreCard label (Some (JNum (Fin (159 # 2)))) weight =
    OK (card label "80" "excellent" weight) /\
  generateScoreCard label (Some (int 150)) weight = OK (card label "150" "excellent" weight) /\
  generateScoreCard label (Some (int (-5))) weight = OK (card label "-5" "weak" weight).
Proof.
  split; [intros x; apply generateScoreCard_number |].
  repeat split; unfold int; rewrite generateScoreCard_number; reflexivity.
Qed.

(** ** The country card *)

Lemma generateCountryCard_string {host : Host} (country : string) (index : nat) :
  generateCountryCard (JStr country) index =
  OK (country_open ++ decimal (Z.of_nat index + 1) ++
      country_flag ++ shown_flag country ++
      country_name ++ country ++
      country_score ++ decimal (100 - Z.of_nat index * 15) ++
      country_close).
Proof.
  unfold generateCountryCard, shown_flag. cbn [ToString_json bind].
  destruct (countryInfo_get country) as [[flag|]|]; reflexivity.
Qed.

(** What holds of every country card: it is always produced, whatever the
    country string; its match percentage is 100 - 15 * index, so 100, 85
    and 70 at the first three positions; a country of the table shows the
    flag of the table; a name that is neither in the table nor a member of
    [Object.prototype] shows the globe. *)
Theorem country_card_general {host : Host} (country : string) (index : nat) :
  (exists flag,
     generateCountryCard (JStr country) index =
     OK (country_open ++ decimal (Z.of_nat index + 1) ++
         country_flag ++ flag ++
         country_name ++ country ++
         country_score ++ decimal (100 - 15 * Z.of_nat index) ++
         country_close) /\
     (forall f, lookup countryInfo country = Some f -> flag = f) /\
     (lookup countryInfo country = None ->
      ~ In country Object_prototype -> flag = "🌍")) /\
  decimal (100 - 15 * 0) = "100" /\
  decimal (100 - 15 * 1) = "85" /\
  decimal (100 - 15 * 2) = "70".
Proof.
  split; [| repeat split].
  exists (shown_flag country). rewrite generateCountryCard_string.
  replace (Z.of_nat index * 15)%Z with (15 * Z.of_nat index)%Z by lia.
  split; [reflexivity |]. unfold shown_flag, countryInfo_get. split.
  - intros f ->. reflexivity.
  - intros -> Hnot.
    destruct (existsb (String.eqb country) Object_prototype) eqn:E; [| reflexivity].
    apply existsb_exists in E as (name & Hin & Heq).
    apply String.eqb_eq in Heq. subst name. contradiction.
Qed.

(** C6, where the code departs from it. The country named [constructor] is
    not in the table, and its card shows the text [undefined] where the
    globe was to stand: [countryInfo['constructor']] finds the member
    inherited from [Object.prototype], which is truthy, so the default is
    not taken, and which has no [flag]. *)
Theorem inherited_name_shows_no_globe {host : Host} :
  lookup countryInfo "constructor" = None /\
  generateCountryCard (JStr "constructor") 0 =
  OK (country_open ++ "1" ++
      country_flag ++ "undefined" ++
      country_name ++ "constructor" ++
      country_score ++ "100" ++
      country_close).
Proof.
  split; reflexivity.
Qed.

(** ** The page *)

Lemma generateHTMLContent_layout {host : Host} (date : string) (results : JSON) (html : string) :
  generateHTMLContent date results = OK html ->
  exists p, interpolations results = OK p /\ html = layout date p.
Proof.
  intros H. apply bind_OK in H as (p & Hp & H). exists p. split; congruence.
Qed.

Lemma interpolations_texts {host : Host} (results : JSON) (p : pieces) :
  interpolations results = OK p ->
  renders (get (Some results) "Student Name" ||| get (Some results) "studentName"
           ||| text "Student") (p_name p) /\
  renders (get (Some results) "Overall Readiness Index" ||| OK (Some (JNum (Fin 0))))
          (p_index p) /\
  renders (get (Some results) "Readiness Level" ||| text "Needs Assessment")
          (p_level p) /\
  renders (get (Some results) "Strengths" ||| text "No strengths identified")
          (p_strengths p) /\
  renders (get (Some results) "Gaps" ||| text "No gaps identified") (p_gaps p) /\
  renders (get (Some results) "Recommendations" ||| text "No recommendations provided")
          (p_recommendations p).
Proof.
  intros H. cbv beta zeta delta [interpolations] in H. bind_inv H.
  injection H as <-. cbn [p_name p_index p_level p_strengths p_gaps p_recommendations].
  unfold renders. repeat split; eauto.
Qed.

Lemma interpolations_cards {host : Host} (results : JSON) (p : pieces) :
  interpolations results = OK p ->
  exists scores countryFit,
    get (Some results) "Scores" ||| OK (Some (JObj [])) = OK scores /\
    Forall (fun c => scoreSlot scores (fst (fst c)) (snd (fst c)) = OK (snd c p))
           categories /\
    get (Some results) "Country Fit (Top 3)" ||| OK (Some (JArr [])) = OK countryFit /\
    countrySection countryFit = OK (p_countries p).
Proof.
  intros H. cbv beta zeta delta [interpolations] in H. bind_inv H.
  injection H as <-. eexists _, _.
  split; [eassumption |]. split; [| split; eassumption].
  repeat constructor; assumption.
Qed.

Lemma layout_index (date : string) (p : pieces) :
  occurs (tpl_index ++ p_index p ++ tpl_level) (layout date p).
Proof. unfold layout. find_piece. Qed.

Lemma layout_level (date : string) (p : pieces) :
  occurs (tpl_level ++ p_level p ++ tpl_scores) (layout date p).
Proof. unfold layout. find_piece. Qed.

Lemma layout_strengths (date : string) (p : pieces) :
  occurs (tpl_strengths ++ p_strengths p ++ tpl_gaps) (layout date p).
Proof. unfold layout. find_piece. Qed.

Lemma layout_gaps (date : string) (p : pieces) :
  occurs (tpl_gaps ++ p_gaps p ++ tpl_recommendations) (layout date p).
Proof. unfold layout. find_piece. Qed.

Lemma layout_recommendations (date : string) (p : pieces) :
  occurs (tpl_recommendations ++ p_recommendations p ++ tpl_countries) (layout date p).
Proof. unfold layout. find_piece. Qed.

Lemma layout_slots (date : string) (p : pieces) :
  Forall (fun c => occurs (snd c p) (layout date p)) categories.
Proof.
  unfold layout. repeat constructor; cbn [snd]; find_piece.
Qed.

(** C7. In the page the builder returns, a section whose field is absent
    from the input holds the default text in its paragraph: No strengths
    identified under Key Strengths, No gaps identified under Areas for
    Development, No recommendations provided under Strategic
    Recommendations. *)
Theorem absent_sections_show_defaults {host : Host}
    (date : string) (results : JSON) (html : string) :
  generateHTMLContent date results = OK html ->
  (field results "Strengths" = undefined ->
   occurs (tpl_strengths ++ "No strengths identified" ++ tpl_gaps) html) /\
  (field results "Gaps" = undefined ->
   occurs (tpl_gaps ++ "No gaps identified" ++ tpl_recommendations) html) /\
  (field results "Recommendations" = undefined ->
   occurs (tpl_recommendations ++ "No recommendations provided" ++ tpl_countries) html).
Proof.
  intros H. apply generateHTMLContent_layout in H as (p & Hp & ->).
  apply interpolations_texts in Hp as (_ & _ & _ & Hs & Hg & Hr).
  repeat split; intros Habsent.
  - rewrite <- (default_is_rendered _ _ _ _ Hs); [apply layout_strengths |].
    now rewrite Habsent.
  - rewrite <- (default_is_rendered _ _ _ _ Hg); [apply layout_gaps |].
    now rewrite Habsent.
  - rewrite <- (default_is_rendered _ _ _ _ Hr); [apply layout_recommendations |].
    now rewrite Habsent.
Qed.

Lemma absent_sections_show_defaults_witness :
  exists html,
    generateHTMLContent (host := integer_host) "March 5, 2025" jane_doe = OK html /\
    occurs (tpl_strengths ++ "No strengths identified" ++ tpl_gaps) html /\
    occurs (tpl_gaps ++ "No gaps identified" ++ tpl_recommendations) html /\
    occurs (tpl_recommendations ++ "No recommendations provided" ++ tpl_countries) html.
Proof.
  eexists. split; [reflexivity |].
  pose proof (absent_sections_show_defaults
                (host := integer_host) "March 5, 2025" jane_doe _ eq_refl)
    as (Hs & Hg & Hr).
  repeat split; [apply Hs | apply Hg | apply Hr]; reflexivity.
Defined.

(** C8. The input alone fixes whether the builder throws and, when it does
    not, three texts between which the date is put twice; the page is
    nothing else. So two calls on one input return pages that differ in the
    two dates only, and are the same page on the same date. *)
Theorem page_depends_on_date_only_through_the_date {host : Host} (results : JSON) :
  exists frame : result (string * string * string),
    forall date,
      generateHTMLContent date results =
      match frame with
      | OK (a, b, c) => OK (a ++ date ++ b ++ date ++ c)
      | Throw => Throw
      end.
Proof.
  exists (p <- interpolations results ;;
          OK (before_date p, between_dates p, tpl_close)).
  intros date. unfold generateHTMLContent.
  destruct (interpolations results) as [p|]; cbn [bind]; [| reflexivity].
  f_equal. unfold layout, before_date, between_dates.
  now rewrite !append_assoc.
Qed.

(** ** The scores grid *)

Lemma scoreSlot_absent {host : Host} (props : list (string * JSON)) (label weight : string) :
  own props label = undefined ->
  scoreSlot (Some (JObj props)) label weight = OK EmptyString.
Proof.
  intros H. unfold scoreSlot, get, field, bind. now rewrite H.
Qed.

Lemma scoreSlot_zero {host : Host} (props : list (string * JSON)) (label weight : string) (x : Q) :
  own props label = Some (JNum (Fin x)) ->
  (x == 0)%Q ->
  scoreSlot (Some (JObj props)) label weight = OK EmptyString.
Proof.
  intros H Hx. unfold scoreSlot, get, field, bind. rewrite H.
  cbn [truthy truthy_json number_truthy].
  apply Qeq_bool_iff in Hx. now rewrite Hx.
Qed.

Lemma scoreSlot_number {host : Host} (props : list (string * JSON)) (label weight : string) (x : Q) :
  own props label = Some (JNum (Fin x)) ->
  ~ (x == 0)%Q ->
  scoreSlot (Some (JObj props)) label weight =
  OK (card label
        (Number_toString (Fin (inject_Z (Qfloor (x + (1 # 2))%Q))))
        (colour (Qfloor (x + (1 # 2))%Q)) weight).
Proof.
  intros H Hx. unfold scoreSlot, get, field, bind. rewrite H.
  cbn [truthy truthy_json number_truthy].
  destruct (Qeq_bool x 0) eqn:E.
  - apply Qeq_bool_iff in E. contradiction.
  - cbn [negb]. apply generateScoreCard_number.
Qed.

(** X9. The grid of a page, category by category: a category absent from
    [Scores] leaves its place empty, and so does a category whose score is
    0; a category with another number has its card there, with the rounded
    score and its colour. *)
Theorem scores_grid {host : Host}
    (date : string) (results : JSON) (html : string)
    (props : list (string * JSON))
    (label weight : string) (place : pieces -> string) :
  generateHTMLContent date results = OK html ->
  field results "Scores" = Some (JObj props) ->
  In (label, weight, place) categories ->
  exists p,
    html = layout date p /\
    occurs (place p) html /\
    (own props label = undefined -> place p = EmptyString) /\
    (forall x, own props label = Some (JNum (Fin x)) ->
       (x == 0)%Q -> place p = EmptyString) /\
    (forall x, own props label = Some (JNum (Fin x)) ->
       ~ (x == 0)%Q ->
       place p =
       card label
         (Number_toString (Fin (inject_Z (Qfloor (x + (1 # 2))%Q))))
         (colour (Qfloor (x + (1 # 2))%Q)) weight).
Proof.
  intros H Hscores Hin.
  apply generateHTMLContent_layout in H as (p & Hp & ->).
  apply interpolations_cards in Hp as (scores & cf & Hs & Hslots & _).
  apply truthy_is_taken in Hs; [| now rewrite Hscores].
  rewrite Hscores in Hs. subst scores.
  pose proof (proj1 (Forall_forall _ _) Hslots _ Hin) as Hslot.
  pose proof (proj1 (Forall_forall _ _) (layout_slots date p) _ Hin) as Hocc.
  cbn [fst snd] in Hslot, Hocc.
  exists p. split; [reflexivity |]. split; [exact Hocc |].
  split; [| split].
  - intros Ha. rewrite (scoreSlot_absent _ _ _ Ha) in Hslot. congruence.
  - intros x Hx Hz. rewrite (scoreSlot_zero _ _ _ _ Hx Hz) in Hslot. congruence.
  - intros x Hx Hnz. rewrite (scoreSlot_number _ _ _ _ Hx Hnz) in Hslot. congruence.
Qed.

(** C2, where the code departs from it. A category whose score is the
    number 0 is in the mapping and gets no card: the grid tests the score
    itself, [scores[label] ? ... : ''], and 0 is falsy. In the report of
    [zero_score] the slot of Financial Planning is empty and the label is
    nowhere in the page. *)
Theorem zero_score_renders_no_card {host : Host} :
  field zero_score "Scores" = Some (JObj [ ("Financial Planning", int 0) ]) /\
  scoreSlot (field zero_score "Scores") "Financial Planning" "25%" = OK EmptyString /\
  exists html,
    generateHTMLContent "March 5, 2025" zero_score = OK html /\
    ~ occurs "Financial Planning" html.
Proof.
  split; [reflexivity |]. split; [reflexivity |].
  eexists. split; [vm_compute; reflexivity |].
  apply not_included. vm_compute. reflexivity.
Qed.

(** ** The builder on an assessment result *)

Lemma own_number (props : list (string * JSON)) (k : string) (v : JSON) :
  forallb (fun kv => is_number (snd kv)) props = true ->
  own props k = Some v ->
  is_number v = true.
Proof.
  induction props as [|[k' v'] props IH]; intros H Ho; [discriminate |].
  cbn in H, Ho. apply andb_true_iff in H as (Hv & Hrest).
  destruct (k' =? k)%string; [congruence | now apply IH].
Qed.

Lemma scoreSlot_returns {host : Host} (props : list (string * JSON)) (label weight : string) :
  forallb (fun kv => is_number (snd kv)) props = true ->
  exists slot, scoreSlot (Some (JObj props)) label weight = OK slot.
Proof.
  intros H. unfold scoreSlot, get, field, bind.
  destruct (own props label) as [v|] eqn:E; [| eexists; reflexivity].
  apply (own_number _ _ _ H) in E.
  destruct v; try discriminate.
  destruct (truthy (Some (JNum n))); eexists; reflexivity.
Qed.

Lemma countryCards_returns {host : Host} (items : list JSON) (index : nat) :
  forallb is_string items = true ->
  exists cards, countryCards items index = OK cards.
Proof.
  revert index. induction items as [|c items IH]; intros index H.
  - eexists. reflexivity.
  - cbn in H. apply andb_true_iff in H as (Hc & Hrest).
    destruct c; try discriminate.
    destruct (IH (S index) Hrest) as (cards & Hcards).
    cbn [countryCards]. rewrite generateCountryCard_string, Hcards.
    eexists. reflexivity.
Qed.

Lemma text_is_rendered {host : Host} (v : value) (d : string) :
  text_or_absent v = true ->
  exists s, ToString (if truthy v then v else Some (JStr d)) = OK s.
Proof.
  intros H. destruct v as [j|]; [| eexists; reflexivity].
  destruct j; try discriminate.
  destruct (truthy (Some (JStr s))); eexists; reflexivity.
Qed.

Lemma name_is_rendered {host : Host} (results : JSON) :
  results <> JNull ->
  text_or_absent (field results "Student Name") = true ->
  text_or_absent (field results "studentName") = true ->
  exists v s,
    get (Some results) "Student Name" ||| get (Some results) "studentName"
    ||| text "Student" = OK v /\
    ToString v = OK s.
Proof.
  intros Hn H1 H2.
  assert (get (Some results) "studentName" = OK (field results "studentName")) as ->
    by (destruct results; try contradiction; reflexivity).
  rewrite (get_or_else _ _ _ Hn). unfold or_else at 1, bind, text.
  destruct (field results "Student Name") as [[]|]; try discriminate;
    destruct (field results "studentName") as [[]|]; try discriminate;
    repeat match goal with
           | |- context [if ?c then _ else _] => plain c; destruct c
           end;
    eexists _, _; (split; reflexivity).
Qed.

(** X8. On a body of the shape of the data model the builder returns a page,
    whatever the name, the scores and the countries are. *)
Theorem builder_returns {host : Host} (date : string) (results : JSON) :
  assessment results = true ->
  exists html, generateHTMLContent date results = OK html.
Proof.
  intros H.
  assert (results <> JNull) as Hn by (intros ->; discriminate).
  destruct results as [| | | | |props]; try discriminate.
  cbn [assessment] in H.
  repeat match type of H with
         | (_ && _)%bool = true =>
             let H' := fresh "Hshape" in apply andb_true_iff in H as (H & H')
         end.
  set (results := JObj props) in *.
  unfold generateHTMLContent, interpolations. cbv zeta.
  (* the name *)
  destruct (name_is_rendered results Hn H Hshape6) as (vname & name & -> & Hname).
  unfold text. rewrite !(get_or_else _ _ _ Hn). cbn [bind]. rewrite Hname.
  (* the index and the level *)
  assert (exists s,
            ToString (if truthy (field results "Overall Readiness Index")
                      then field results "Overall Readiness Index"
                      else Some (JNum (Fin 0))) = OK s) as (index & ->).
  { destruct (field results "Overall Readiness Index") as [[]|];
      try discriminate; [| eexists; reflexivity].
    destruct (truthy (Some (JNum n))); eexists; reflexivity. }
  destruct (text_is_rendered (field results "Readiness Level")
              "Needs Assessment") as (level & ->); [assumption |].
  cbn [bind].
  (* the grid *)
  assert (exists ps,
            (if truthy (field results "Scores") then field results "Scores"
             else Some (JObj [])) = Some (JObj ps) /\
            forallb (fun kv => is_number (snd kv)) ps = true)
    as (ps & -> & Hps).
  { destruct (field results "Scores") as [[]|]; try discriminate.
    - exists props0. split; [reflexivity | assumption].
    - exists []. split; reflexivity. }
  destruct (scoreSlot_returns ps "Financial Planning" "25%" Hps) as (c1 & ->).
  destruct (scoreSlot_returns ps "Academic Readiness" "20%" Hps) as (c2 & ->).
  destruct (scoreSlot_returns ps "Career Alignment" "20%" Hps) as (c3 & ->).
  destruct (scoreSlot_returns ps "Personal & Cultural" "15%" Hps) as (c4 & ->).
  destruct (scoreSlot_returns ps "Practical Readiness" "10%" Hps) as (c5 & ->).
  destruct (scoreSlot_returns ps "Support System" "10%" Hps) as (c6 & ->).
  cbn [bind].
  (* the three sections *)
  destruct (text_is_rendered (field results "Strengths")
              "No strengths identified") as (strengths & ->); [assumption |].
  destruct (text_is_rendered (field results "Gaps")
              "No gaps identified") as (gaps & ->); [assumption |].
  destruct (text_is_rendered (field results "Recommendations")
              "No recommendations provided") as (recs & ->); [assumption |].
  cbn [bind].
  (* the countries *)
  assert (exists countries,
            countrySection
              (if truthy (field results "Country Fit (Top 3)")
               then field results "Country Fit (Top 3)"
               else Some (JArr [])) = OK countries) as (countries & ->).
  { destruct (field results "Country Fit (Top 3)") as [[]|];
      try discriminate; [| eexists; reflexivity].
    cbn [truthy truthy_json]. unfold countrySection.
    destruct items as [|c items]; [eexists; reflexivity |].
    destruct (countryCards_returns (c :: items) 0) as (cards & ->);
      [assumption | eexists; reflexivity]. }
  cbn [bind]. eexists. reflexivity.
Qed.

Lemma builder_returns_witness :
  exists html,
    generateHTMLContent (host := integer_host) "March 5, 2025" full_result = OK html.
Proof.
  apply (builder_returns (host := integer_host) "March 5, 2025" full_result).
  reflexivity.
Defined.

(** ** The handler: validation *)

(** Past the validation the handler answers 200 or 500. *)
Lemma render_answers_200_or_500 {host : Host}
    (w : World) (results : JSON) (response : Response) (t : list event) :
  caught (render w results) = (response, t) ->
  status response = 200%Z \/ status response = 500%Z.
Proof.
  intros H. paths H; cbn; tauto.
Qed.

(** C1, as the code has it. For a body other than [null]: when neither
    [Student Name] nor [studentName] is present and non-empty, [POST]
    answers 400 with [{ error: 'Missing student name' }] and calls nothing
    on the browser; when one of them is, the validation passes and the rest
    of the handler runs on the same body, which does not answer 400. *)
Theorem validation_of_the_student_name {host : Host} (w : World) (results : JSON) :
  results <> JNull ->
  (named results "Student Name" = false ->
   named results "studentName" = false ->
   POST w (OK results) =
   (NextResponse_json (error "Missing student name") 400, [])) /\
  (named results "Student Name" = true \/ named results "studentName" = true ->
   POST w (OK results) = caught (render w results) /\
   status (fst (POST w (OK results))) <> 400%Z).
Proof.
  intros Hnull.
  pose proof (missingStudentName_defined results Hnull) as Hm.
  split.
  - intros H1 H2. rewrite H1, H2 in Hm.
    cbv [POST caught andThen eval]. rewrite Hm. reflexivity.
  - intros H.
    assert (negb (named results "Student Name") &&
            negb (named results "studentName") = false) as Hf
      by (destruct H as [-> | ->]; [reflexivity | apply andb_false_r]).
    rewrite Hf in Hm.
    assert (POST w (OK results) = caught (render w results)) as ->
      by (cbv [POST caught andThen eval]; rewrite Hm; reflexivity).
    split; [reflexivity |].
    destruct (caught (render w results)) as [response t] eqn:E.
    apply render_answers_200_or_500 in E. cbn [fst]. lia.
Qed.

Lemma validation_of_the_student_name_witness :
  JObj [] <> JNull /\
  POST (host := integer_host) (printing "March 5, 2025" []) (OK (JObj [])) =
  (NextResponse_json (error "Missing student name") 400, []) /\
  POST (host := integer_host) (pdf_failing "March 5, 2025") (OK jane_doe) =
  caught (render (host := integer_host) (pdf_failing "March 5, 2025") jane_doe).
Proof.
  split; [discriminate |]. split.
  - apply (validation_of_the_student_name
             (host := integer_host) (printing "March 5, 2025" []) (JObj []));
      [discriminate | reflexivity | reflexivity].
  - apply (validation_of_the_student_name
             (host := integer_host) (pdf_failing "March 5, 2025") jane_doe);
      [discriminate | left; reflexivity].
Defined.

(** C1 as stated fails on the body [null]: it has neither name field, and
    reading a property of [null] throws, so the handler answers 500 from its
    [catch], in every world. *)
Lemma null_body_is_answered_500 :
  named JNull "Student Name" = false /\
  named JNull "studentName" = false /\
  (forall (host : Host) (w : World),
     POST w (OK JNull) =
     (NextResponse_json (error "Failed to generate PDF") 500, [])).
Proof.
  repeat split.
Qed.

(** ** The handler: the browser *)

(** C3, where the code departs from it. The browser is launched, a page is
    opened, [page.setContent] rejects: the handler answers 500 from its
    [catch], which does not close the browser. *)
Theorem content_failure_leaves_browser_open {host : Host} (date : string) :
  exists t,
    POST (content_failing date) (OK jane_doe) =
    (NextResponse_json (error "Failed to generate PDF") 500, t) /\
    t = [BrowserLaunched; PageOpened] /\
    In BrowserLaunched t /\
    ~ In BrowserClosed t.
Proof.
  eexists. split; [reflexivity |]. split; [reflexivity |].
  split; cbn; [tauto | intuition discriminate].
Qed.

(** The paths that close the browser: every one on which the content was
    loaded, that is, every one that reaches [page.pdf]. *)
Lemma closed_once_content_is_loaded {host : Host}
    (w : World) (request : result JSON) (response : Response) (t : list event) :
  POST w request = (response, t) ->
  In ContentLoaded t -> In BrowserClosed t.
Proof.
  intros H. paths H; cbn; intuition congruence.
Qed.

(** The paths that leave it open: the browser was launched and the content
    was not loaded ([newPage], the builder or [setContent] threw). *)
Lemma open_unless_content_is_loaded {host : Host}
    (w : World) (request : result JSON) (response : Response) (t : list event) :
  POST w request = (response, t) ->
  In BrowserLaunched t -> ~ In ContentLoaded t ->
  ~ In BrowserClosed t /\
  response = NextResponse_json (error "Failed to generate PDF") 500.
Proof.
  intros H. paths H; cbn; intuition congruence.
Qed.

(** ** The fallback document *)

Lemma shown_renders {host : Host} (results : JSON) (k d s : string) :
  shown results k d = OK s -> renders (get (Some results) k ||| text d) s.
Proof.
  intros H. apply bind_OK in H as (v & Hv & H). exists v. split; assumption.
Qed.

Lemma renders_shown {host : Host} (results : JSON) (k d s : string) :
  renders (get (Some results) k ||| text d) s -> shown results k d = OK s.
Proof.
  intros (v & Hv & Hs). unfold shown. now rewrite Hv.
Qed.

Lemma shown_shows {host : Host} (results : JSON) (k d s : string) :
  shown results k d = OK s -> shows results k d s.
Proof.
  intros H. apply shown_renders in H. unfold shows.
  destruct (truthy (field results k)) eqn:E.
  - destruct H as (v & Hv & Hs).
    apply truthy_is_taken in Hv; [| exact E]. now subst v.
  - now apply (default_is_rendered results k d s).
Qed.

Lemma fallbackDocument_texts {host : Host} (results : JSON) (doc : string) :
  fallbackDocument results = OK doc ->
  exists name index level strengths recommendations,
    (n <- givenName results ;; ToString n) = OK name /\
    shown results "Overall Readiness Index" "N/A" = OK index /\
    shown results "Readiness Level" "Needs Assessment" = OK level /\
    shown results "Strengths" "No strengths identified" = OK strengths /\
    shown results "Recommendations" "No recommendations provided" = OK recommendations /\
    doc = fb_title ++ name ++
          fb_student ++ name ++
          fb_index ++ index ++
          fb_level ++ level ++
          fb_strengths ++ strengths ++
          fb_recommendations ++ recommendations ++
          fb_note.
Proof.
  intros H. unfold fallbackDocument in H.
  apply bind_OK in H as (title & Ht & H).
  apply bind_OK in H as (student & Hs & H).
  apply bind_OK in H as (index & Hi & H).
  apply bind_OK in H as (level & Hl & H).
  apply bind_OK in H as (strengths & Hst & H).
  apply bind_OK in H as (recommendations & Hr & H).
  injection H as <-.
  assert (student = title) as -> by congruence.
  exists title, index, level, strengths, recommendations. repeat split; assumption.
Qed.

(** C10. When the overall readiness index is absent or 0, the page shows
    0 in its heading and the fallback document shows N/A; when the
    readiness level is absent, both show Needs Assessment. *)
Theorem index_and_level_defaults {host : Host}
    (date : string) (results : JSON) (html doc : string) :
  generateHTMLContent date results = OK html ->
  fallbackDocument results = OK doc ->
  (absent_or_zero (field results "Overall Readiness Index") ->
   occurs (tpl_index ++ "0" ++ tpl_level) html /\
   occurs (fb_index ++ "N/A" ++ fb_level) doc) /\
  (field results "Readiness Level" = undefined ->
   occurs (tpl_level ++ "Needs Assessment" ++ tpl_scores) html /\
   occurs (fb_level ++ "Needs Assessment" ++ fb_strengths) doc).
Proof.
  intros H Hd. apply generateHTMLContent_layout in H as (p & Hp & ->).
  apply interpolations_texts in Hp as (_ & Hi & Hl & _).
  apply fallbackDocument_texts in Hd
    as (name & index & level & strengths & recs & _ & Hfi & Hfl & _ & _ & ->).
  apply shown_renders in Hfi, Hfl.
  split.
  - intros Hz. apply absent_or_zero_falsy in Hz. split.
    + destruct Hi as (v & Hv & Hs).
      apply falsy_takes_default in Hv; [| exact Hz].
      injection Hv as <-.
      assert (p_index p = "0") as <- by (cbn in Hs; congruence).
      apply layout_index.
    + rewrite (default_is_rendered _ _ _ _ Hfi Hz). find_piece.
  - intros Ha.
    assert (truthy (field results "Readiness Level") = false) as Hf
      by now rewrite Ha.
    split.
    + rewrite <- (default_is_rendered _ _ _ _ Hl Hf). apply layout_level.
    + rewrite (default_is_rendered _ _ _ _ Hfl Hf). find_piece.
Qed.

Lemma index_and_level_defaults_witness :
  exists html doc,
    generateHTMLContent (host := integer_host) "March 5, 2025" zero_score = OK html /\
    fallbackDocument (host := integer_host) zero_score = OK doc /\
    occurs (tpl_index ++ "0" ++ tpl_level) html /\
    occurs (fb_index ++ "N/A" ++ fb_level) doc /\
    occurs (tpl_level ++ "Needs Assessment" ++ tpl_scores) html /\
    occurs (fb_level ++ "Needs Assessment" ++ fb_strengths) doc.
Proof.
  eexists _, _. split; [reflexivity |]. split; [reflexivity |].
  pose proof (index_and_level_defaults
                (host := integer_host) "March 5, 2025" zero_score _ _
                eq_refl eq_refl) as (Hi & Hl).
  destruct Hi as (H1 & H2); [left; reflexivity |].
  destruct Hl as (H3 & H4); [reflexivity |].
  repeat split; assumption.
Defined.

(** ** The handler: the answers *)

Lemma fileSlug_of_string {host : Host} (results : JSON) (name : string) :
  givenName results = OK (Some (JStr name)) ->
  fileSlug results = OK (toLowerCase (replace_whitespace name)).
Proof.
  intros H. unfold fileSlug. now rewrite H.
Qed.

(** Once the page was built for a body whose student name is a string, the
    fallback document does not throw: it interpolates the same fields. *)
Lemma fallback_after_page {host : Host} (results : JSON) (p : pieces) (name : string) :
  interpolations results = OK p ->
  givenName results = OK (Some (JStr name)) ->
  exists doc, fallbackDocument results = OK doc.
Proof.
  intros Hp Hname.
  pose proof (givenName_not_null _ _ Hname) as Hn.
  apply interpolations_texts in Hp as (_ & Hi & Hl & Hs & _ & Hr).
  apply renders_shown in Hl, Hs, Hr.
  assert (exists index, shown results "Overall Readiness Index" "N/A" = OK index)
    as (index & Hidx).
  { unfold shown, text. rewrite (get_or_else _ _ _ Hn).
    destruct Hi as (v & Hv & Hi). rewrite (get_or_else _ _ _ Hn) in Hv.
    destruct (truthy (field results "Overall Readiness Index")).
    - injection Hv as <-. exists (p_index p). exact Hi.
    - exists "N/A". reflexivity. }
  unfold fallbackDocument. rewrite Hname, Hidx, Hl, Hs, Hr. cbn [bind ToString ToString_json].
  eexists. reflexivity.
Qed.

Lemma fallback_note_in_document : occurs fallback_note fb_note.
Proof.
  apply includes_occurs. reflexivity.
Qed.

(** The headers of the two answers 200 are accepted for a name written in
    bytes other than U+0000. *)
Lemma fallback_headers_accepted {host : Host} (name : string) :
  written_in headerCharacter name = true ->
  forallb (fun h => isHeaderValue (snd h))
    [ ("Content-Type", "text/html");
      ("Content-Disposition",
       html_name_prefix ++ toLowerCase (replace_whitespace name) ++
       html_name_suffix) ] = true.
Proof.
  intros H. cbn [forallb snd].
  rewrite file_name_is_a_header_value; [reflexivity | reflexivity | reflexivity | exact H].
Qed.

Lemma pdf_headers_accepted {host : Host} (name : string) (size : Z) :
  written_in headerCharacter name = true ->
  forallb (fun h => isHeaderValue (snd h))
    [ ("Content-Type", "application/pdf");
      ("Content-Length", decimal size);
      ("Content-Disposition",
       pdf_name_prefix ++ toLowerCase (replace_whitespace name) ++
       pdf_name_suffix) ] = true.
Proof.
  intros H. cbn [forallb snd]. rewrite isHeaderValue_decimal.
  rewrite file_name_is_a_header_value; [reflexivity | reflexivity | reflexivity | exact H].
Qed.

(** C4, where the code departs from it. The student is called Łukasz
    Nowak, a valid body, and [page.pdf] fails. The handler closes the
    browser and builds the fallback document, but the file name of the
    attachment, study-abroad-report-łukasz-nowak.html, holds the letter
    U+0142, which is no byte: the constructor of the response throws on
    this header value, and the handler answers 500 from its [catch] instead
    of the fallback document. *)
Theorem fallback_is_lost_on_a_name_beyond_latin1 {host : Host} (date : string) :
  assessment lukasz = true /\
  named lukasz "Student Name" = true /\
  fileSlug lukasz = OK "łukasz-nowak" /\
  isHeaderValue (html_name_prefix ++ "łukasz-nowak" ++ html_name_suffix) = false /\
  POST (pdf_failing date) (OK lukasz) =
  (NextResponse_json (error "Failed to generate PDF") 500, failed_run).
Proof.
  split; [reflexivity |]. split; [reflexivity |]. split; [reflexivity |].
  split; reflexivity.
Qed.

(** The same answer on a body whose student name is the number 42. The
    name is present and the validation passes; [page.pdf] fails, the
    browser is closed, and building the file name throws, a number having
    no [replace]. *)
Lemma numbered_name_is_answered_500 :
  named numbered "Student Name" = true /\
  (forall (host : Host) (date : string),
     POST (pdf_failing date) (OK numbered) =
     (NextResponse_json (error "Failed to generate PDF") 500,
      [BrowserLaunched; PageOpened; ContentLoaded; Waited 3000;
       PdfFailed; BrowserClosed])).
Proof.
  split; [reflexivity | intros host date; reflexivity].
Qed.

(** X21. The fallback answer, for the names it is sent for. For a body
    whose student name is a string of white space and of characters U+0001
    to U+00FF, a run in which [page.pdf] fails ends in the answer 200 of
    type [text/html], sent as an attachment named after the slug of the
    name; its body is the fallback document: the name in the title and in
    the heading, then the overall readiness index, the readiness level, the
    strengths and the recommendations (each the text of its field when the
    field is truthy, else N/A, Needs Assessment, No strengths identified,
    No recommendations provided), then the note. *)
Theorem pdf_failure_answers_with_the_fallback {host : Host}
    (w : World) (results : JSON) (name : string)
    (response : Response) (t : list event) :
  givenName results = OK (Some (JStr name)) ->
  written_in headerCharacter name = true ->
  POST w (OK results) = (response, t) ->
  In PdfFailed t ->
  status response = 200%Z /\
  header response "Content-Type" = Some "text/html" /\
  header response "Content-Disposition" =
    Some (html_name_prefix ++ slugify name ++ html_name_suffix) /\
  exists index level strengths recommendations document,
    body response = TextBody document /\
    document = fb_title ++ name ++
               fb_student ++ name ++
               fb_index ++ index ++
               fb_level ++ level ++
               fb_strengths ++ strengths ++
               fb_recommendations ++ recommendations ++
               fb_note /\
    occurs fallback_note document /\
    shows results "Overall Readiness Index" "N/A" index /\
    shows results "Readiness Level" "Needs Assessment" level /\
    shows results "Strengths" "No strengths identified" strengths /\
    shows results "Recommendations" "No recommendations provided" recommendations.
Proof.
  intros Hname Hbytes H Hin.
  pose proof (fileSlug_of_string _ _ Hname) as Hslug.
  pose proof (fallback_headers_accepted name Hbytes) as Hheaders.
  paths H; cbn in Hin; try (exfalso; intuition congruence);
    try match goal with
        | Hf : fileSlug _ = OK ?x |- _ =>
            assert (x = toLowerCase (replace_whitespace name)) as -> by congruence
        end;
    try (exfalso; congruence).
  - (* the fallback answer *)
    match goal with
    | Hd : fallbackDocument _ = OK _ |- _ =>
        apply fallbackDocument_texts in Hd
          as (n & index & level & strengths & recs & Hn & Hi & Hl & Hs & Hr & ->)
    end.
    rewrite Hname in Hn. cbn in Hn. injection Hn as <-.
    rewrite slug_is_slugify.
    repeat split; try reflexivity.
    eexists index, level, strengths, recs, _.
    split; [reflexivity |]. split; [reflexivity |].
    split; [find_piece; apply fallback_note_in_document |].
    repeat split; now apply shown_shows.
  - (* the fallback document cannot throw *)
    exfalso.
    match goal with
    | Hg : generateHTMLContent _ _ = OK _ |- _ =>
        apply generateHTMLContent_layout in Hg as (p & Hp & _);
        destruct (fallback_after_page _ _ _ Hp Hname) as (doc & Hdoc)
    end.
    congruence.
Qed.

Lemma pdf_failure_answers_with_the_fallback_witness :
  let run := POST (host := integer_host) (pdf_failing "March 5, 2025") (OK jane_doe) in
  givenName jane_doe = OK (Some (JStr "Jane Doe")) /\
  written_in headerCharacter "Jane Doe" = true /\
  In PdfFailed (snd run) /\
  status (fst run) = 200%Z /\
  header (fst run) "Content-Type" = Some "text/html" /\
  header (fst run) "Content-Disposition" =
    Some (html_name_prefix ++ "jane-doe" ++ html_name_suffix).
Proof.
  assert (In PdfFailed
            (snd (POST (host := integer_host) (pdf_failing "March 5, 2025")
                    (OK jane_doe)))) as Hin
    by (cbn; tauto).
  pose proof (pdf_failure_answers_with_the_fallback
                (host := integer_host) (pdf_failing "March 5, 2025")
                jane_doe "Jane Doe" _ _ eq_refl eq_refl eq_refl Hin)
    as (Hs & Ht & Hd & _).
  cbv zeta. split; [reflexivity |]. split; [reflexivity |]. split; [exact Hin |].
  split; [exact Hs |]. split; [exact Ht | exact Hd].
Defined.

(** The answer when the PDF is rendered: for a body whose student name is a
    string and a buffer that is not empty, 200 of type [application/pdf]
    with the buffer as its body and the browser closed. *)
Theorem pdf_success_answers_with_the_buffer {host : Host}
    (w : World) (results : JSON) (name : string)
    (response : Response) (t : list event) :
  givenName results = OK (Some (JStr name)) ->
  POST w (OK results) = (response, t) ->
  In PdfRendered t ->
  header response "Content-Type" = Some "application/pdf" ->
  status response = 200%Z /\
  In BrowserClosed t /\
  exists buffer,
    buffer <> [] /\
    body response = BinaryBody buffer /\
    header response "Content-Length" = Some (decimal (Z.of_nat (length buffer))).
Proof.
  intros Hname H Hin Htype.
  paths H; cbn in Hin; try (exfalso; intuition congruence);
    try discriminate Htype.
  split; [reflexivity |]. split; [cbn; tauto |].
  match goal with
  | Hl : (length ?b =? 0)%nat = false |- _ =>
      exists b; repeat split; try reflexivity;
      intros ->; discriminate Hl
  end.
Qed.

(** ** The file name *)

(** Upper case, a run of several blanks, white space at both ends, tabs and
    line feeds, a no-break space and an em space, letters of Latin-1 and of
    Latin Extended-A. *)
Example slugify_examples {host : Host} :
  slugify "Jane Doe" = "jane-doe" /\
  slugify "Mary  Ann   SMITH" = "mary-ann-smith" /\
  slugify " Jane Doe " = "-jane-doe-" /\
  slugify ("Jane" ++ utf8 0x9 ++ utf8 0xA ++ "Doe") = "jane-doe" /\
  slugify ("Jane" ++ utf8 0xA0 ++ "DOE ÉMILE") = "jane-doe-émile" /\
  slugify ("Anna" ++ utf8 0x2003 ++ "ĎURIŠOVÁ") = "anna-ďurišová" /\
  slugify "Cher" = "cher".
Proof.
  repeat split.
Qed.

(** C9. When [POST] answers a body whose student name is the string
    [name], the file name of a PDF answer is psychometric-report-, the
    slug of the name, .pdf, and the file name of an HTML answer is
    study-abroad-report-, the slug, .html; the slug is the one of the
    specification, every run of white space replaced by one hyphen and the
    name in lower case, so Jane Doe gives jane-doe. *)
Theorem download_file_names {host : Host}
    (w : World) (results : JSON) (name : string)
    (response : Response) (t : list event) :
  givenName results = OK (Some (JStr name)) ->
  POST w (OK results) = (response, t) ->
  (header response "Content-Type" = Some "application/pdf" ->
   header response "Content-Disposition" =
     Some (pdf_name_prefix ++ slugify name ++ pdf_name_suffix)) /\
  (header response "Content-Type" = Some "text/html" ->
   header response "Content-Disposition" =
     Some (html_name_prefix ++ slugify name ++ html_name_suffix)) /\
  slugify "Jane Doe" = "jane-doe".
Proof.
  intros Hname H.
  pose proof (fileSlug_of_string _ _ Hname) as Hslug.
  rewrite slug_is_slugify in Hslug.
  paths H; (split; [| split; [| reflexivity]]); intros Htype;
    try discriminate Htype;
    match goal with
    | Hf : fileSlug _ = OK ?x |- _ =>
        assert (x = slugify name) as -> by congruence
    end;
    reflexivity.
Qed.

Lemma download_file_names_witness :
  header (fst (POST (host := integer_host) (printing "March 5, 2025" ["%"%byte])
                 (OK jane_doe))) "Content-Disposition" =
    Some (pdf_name_prefix ++ "jane-doe" ++ pdf_name_suffix) /\
  header (fst (POST (host := integer_host) (pdf_failing "March 5, 2025")
                 (OK jane_doe))) "Content-Disposition" =
    Some (html_name_prefix ++ "jane-doe" ++ html_name_suffix).
Proof.
  split.
  - apply (download_file_names
             (host := integer_host) (printing "March 5, 2025" ["%"%byte])
             jane_doe "Jane Doe" _ _ eq_refl eq_refl).
    reflexivity.
  - apply (download_file_names
             (host := integer_host) (pdf_failing "March 5, 2025")
             jane_doe "Jane Doe" _ _ eq_refl eq_refl).
    reflexivity.
Defined.

(** * Further properties of the code

    ** The runs of the handler *)

(** X1. Every run of [POST] ends in one of eight ways: 400 or 500 with no
    browser call; 500 after the launch alone, or after the launch and the
    new page; and, once the content is loaded, the wait, one attempt at
    the PDF and the close of the browser, in this order, behind a 200 or a
    500. So 400 is answered before any browser call, 200 only after the
    PDF step and the close, and nothing is called after the close. *)
Theorem handler_outcomes {host : Host} (w : World) (request : result JSON) :
  In (status (fst (POST w request)), snd (POST w request)) outcomes.
Proof.
  destruct (POST w request) as [response t] eqn:H.
  paths H; cbn; unfold failed_run, rendered_run;
    repeat first [left; reflexivity | right].
Qed.

(** X2. Once the browser is launched, it is closed before the answer if and
    only if [page.setContent] succeeded. *)
Theorem browser_closed_iff_content_loaded {host : Host}
    (w : World) (request : result JSON) :
  In BrowserLaunched (snd (POST w request)) ->
  (In BrowserClosed (snd (POST w request)) <->
   In ContentLoaded (snd (POST w request))).
Proof.
  destruct (POST w request) as [response t] eqn:H.
  paths H; cbn; intuition congruence.
Qed.

Lemma browser_closed_iff_content_loaded_witness :
  (In BrowserClosed
     (snd (POST (host := integer_host) (content_failing "March 5, 2025") (OK jane_doe))) <->
   In ContentLoaded
     (snd (POST (host := integer_host) (content_failing "March 5, 2025") (OK jane_doe)))) /\
  (In BrowserClosed
     (snd (POST (host := integer_host) (pdf_failing "March 5, 2025") (OK jane_doe))) <->
   In ContentLoaded
     (snd (POST (host := integer_host) (pdf_failing "March 5, 2025") (OK jane_doe)))).
Proof.
  split.
  - apply (browser_closed_iff_content_loaded
             (host := integer_host) (content_failing "March 5, 2025") (OK jane_doe)).
    cbn. tauto.
  - apply (browser_closed_iff_content_loaded
             (host := integer_host) (pdf_failing "March 5, 2025") (OK jane_doe)).
    cbn. tauto.
Defined.

Lemma missingStudentName_of_givenName (results : JSON) (v : value) :
  givenName results = OK v ->
  missingStudentName results = OK (negb (truthy v)).
Proof.
  unfold givenName, missingStudentName, or_else, get, bind.
  destruct results; try discriminate;
    destruct (truthy (field _ "Student Name")) eqn:E; intros H;
    injection H as <-; cbn [field] in *; now rewrite ?E.
Qed.

Lemma fileSlug_needs_a_string {host : Host} (results : JSON) (x : string) :
  fileSlug results = OK x ->
  exists name, givenName results = OK (Some (JStr name)).
Proof.
  unfold fileSlug. intros H. apply bind_OK in H as (v & Hv & H).
  destruct v as [[]|]; try discriminate. now exists s.
Qed.

(** X3. The answer when the PDF is rendered. For a body whose student name
    is a string other than the empty one, of white space and of characters
    U+0001 to U+00FF, in a world where the launch, the new page and the
    loading of the page succeed and [page.pdf] gives a buffer that is not
    empty: the answer is 200 with the buffer as its body, [Content-Type]
    [application/pdf], [Content-Length] the length of the buffer and the
    file name psychometric-report-, slug, .pdf, after the trace of a
    rendered run. *)
Theorem pdf_success_response {host : Host}
    (w : World) (results : JSON) (name html : string) (buffer : list byte) :
  givenName results = OK (Some (JStr name)) ->
  name <> EmptyString ->
  written_in headerCharacter name = true ->
  launch w = true ->
  newPage w = true ->
  generateHTMLContent (today w) results = OK html ->
  setContent w html = true ->
  pdf w html = OK buffer ->
  buffer <> [] ->
  POST w (OK results) =
  ({| status := 200;
      headers :=
        [ ("Content-Type", "application/pdf");
          ("Content-Length", decimal (Z.of_nat (length buffer)));
          ("Content-Disposition", pdf_name_prefix ++ slugify name ++ pdf_name_suffix) ];
      body := BinaryBody buffer |},
   rendered_run).
Proof.
  intros Hname Hne Hbytes Hl Hp Hhtml Hc Hpdf Hbuf.
  pose proof (missingStudentName_of_givenName _ _ Hname) as Hm.
  assert (truthy (Some (JStr name)) = true) as Ht.
  { cbn. destruct name; [contradiction | reflexivity]. }
  rewrite Ht in Hm.
  pose proof (fileSlug_of_string _ _ Hname) as Hs.
  pose proof (pdf_headers_accepted name (Z.of_nat (length buffer)) Hbytes) as Hh.
  rewrite slug_is_slugify in Hs, Hh.
  assert ((length buffer =? 0)%nat = false) as Hlen
    by (destruct buffer; [contradiction | reflexivity]).
  cbv [POST caught render andThen eval emit await ret newResponse].
  rewrite Hm, Hl, Hp, Hhtml, Hc, Hpdf, Hlen, Hs, Hh. reflexivity.
Qed.

Lemma pdf_success_response_witness :
  exists response,
    POST (host := integer_host) (printing "March 5, 2025" ["%"%byte; "P"%byte])
      (OK jane_doe) = (response, rendered_run) /\
    status response = 200%Z /\
    body response = BinaryBody ["%"%byte; "P"%byte] /\
    header response "Content-Length" = Some "2".
Proof.
  eexists. split.
  - eapply (pdf_success_response
              (host := integer_host) (printing "March 5, 2025" ["%"%byte; "P"%byte])
              jane_doe "Jane Doe");
      try reflexivity; discriminate.
  - repeat split.
Defined.

(** X4. The answer when the PDF is empty. For a body with a student name,
    in a world where the launch, the new page and the loading of the page
    succeed and [page.pdf] gives an empty buffer: the browser is closed and
    the answer is 500 with the error PDF generation failed - empty buffer. *)
Theorem empty_buffer_response {host : Host}
    (w : World) (results : JSON) (name : value) (html : string) :
  givenName results = OK name ->
  truthy name = true ->
  launch w = true ->
  newPage w = true ->
  generateHTMLContent (today w) results = OK html ->
  setContent w html = true ->
  pdf w html = OK [] ->
  POST w (OK results) =
  (NextResponse_json (error "PDF generation failed - empty buffer") 500,
   rendered_run).
Proof.
  intros Hname Ht Hl Hp Hhtml Hc Hpdf.
  pose proof (missingStudentName_of_givenName _ _ Hname) as Hm.
  rewrite Ht in Hm.
  cbv [POST caught render andThen eval emit await ret].
  rewrite Hm, Hl, Hp, Hhtml, Hc, Hpdf. reflexivity.
Qed.

Lemma empty_buffer_response_witness :
  POST (host := integer_host) (printing "March 5, 2025" []) (OK numbered) =
  (NextResponse_json (error "PDF generation failed - empty buffer") 500,
   rendered_run).
Proof.
  eapply (empty_buffer_response
            (host := integer_host) (printing "March 5, 2025" []) numbered
            (Some (int 42))); reflexivity.
Defined.

(** X5. An answer 200 is given only to a body whose student name is a
    string other than the empty one: without a name the answer is 400, and
    with a name of another type the file name cannot be built and the
    answer is 500. *)
Theorem ok_answer_needs_a_string_name {host : Host}
    (w : World) (request : result JSON) :
  status (fst (POST w request)) = 200%Z ->
  exists results name,
    request = OK results /\
    givenName results = OK (Some (JStr name)) /\
    name <> EmptyString.
Proof.
  destruct (POST w request) as [response t] eqn:H.
  paths H; cbn; intros Hs; try discriminate Hs;
    match goal with
    | Hf : fileSlug ?r = OK _, Hm : missingStudentName ?r = OK false |- _ =>
        apply fileSlug_needs_a_string in Hf as (name & Hname);
        rewrite (missingStudentName_of_givenName _ _ Hname) in Hm;
        exists r, name; repeat split; [exact Hname |];
        intros ->; discriminate Hm
    end.
Qed.

Lemma ok_answer_needs_a_string_name_witness :
  exists results name,
    OK jane_doe = OK results /\
    givenName results = OK (Some (JStr name)) /\
    name <> EmptyString.
Proof.
  apply (ok_answer_needs_a_string_name
           (host := integer_host) (pdf_failing "March 5, 2025") (OK jane_doe)).
  reflexivity.
Defined.

(** X22. An answer 200 carries a file name that is a header value. For a
    body whose student name is a string, [POST] answers 200 only when the
    file name it sends, of the fallback document or of the PDF, is a header
    value: where the slug of the name holds U+0000 or a character above
    U+00FF, every run answers something else, whatever the browser does. *)
Theorem ok_answer_needs_a_header_value {host : Host}
    (w : World) (results : JSON) (name : string) :
  givenName results = OK (Some (JStr name)) ->
  status (fst (POST w (OK results))) = 200%Z ->
  exists file,
    header (fst (POST w (OK results))) "Content-Disposition" = Some file /\
    isHeaderValue file = true /\
    (file = html_name_prefix ++ slugify name ++ html_name_suffix \/
     file = pdf_name_prefix ++ slugify name ++ pdf_name_suffix).
Proof.
  intros Hname.
  pose proof (fileSlug_of_string _ _ Hname) as Hslug.
  rewrite slug_is_slugify in Hslug.
  destruct (POST w (OK results)) as [response t] eqn:H.
  paths H; cbn; intros Hs; try discriminate Hs;
    match goal with
    | Hf : fileSlug _ = OK ?x |- _ =>
        assert (x = slugify name) as -> by congruence
    end;
    match goal with
    | Hh : forallb _ _ = true |- _ =>
        cbn [forallb snd] in Hh; rewrite !andb_true_iff in Hh
    end;
    eexists; (split; [reflexivity |]); (split; [tauto |]); tauto.
Qed.

Lemma ok_answer_needs_a_header_value_witness :
  exists file,
    header (fst (POST (host := integer_host) (pdf_failing "March 5, 2025")
                   (OK jane_doe))) "Content-Disposition" = Some file /\
    isHeaderValue file = true /\
    (file = html_name_prefix ++ slugify (host := integer_host) "Jane Doe" ++
            html_name_suffix \/
     file = pdf_name_prefix ++ slugify (host := integer_host) "Jane Doe" ++
            pdf_name_suffix).
Proof.
  apply (ok_answer_needs_a_header_value
           (host := integer_host) (pdf_failing "March 5, 2025") jane_doe "Jane Doe");
    reflexivity.
Defined.

(** ** What the two documents read *)

Lemma get_field (results : JSON) (k : string) :
  results <> JNull -> get (Some results) k = OK (field results k).
Proof.
  intros H. destruct results; try contradiction; reflexivity.
Qed.

(** X6. The fallback document is fixed by six fields of the body: the two
    name fields, the overall readiness index, the readiness level, the
    strengths and the recommendations. The gaps, the scores and the
    countries play no part in it. *)
Theorem fallback_reads_six_fields {host : Host} (r1 r2 : JSON) :
  r1 <> JNull ->
  r2 <> JNull ->
  (forall k, In k fallback_fields -> field r1 k = field r2 k) ->
  fallbackDocument r1 = fallbackDocument r2.
Proof.
  intros H1 H2 Hsame.
  unfold fallbackDocument, givenName, shown.
  rewrite !(get_field r1), !(get_field r2) by assumption.
  rewrite (Hsame "Student Name"), (Hsame "studentName"),
    (Hsame "Overall Readiness Index"), (Hsame "Readiness Level"),
    (Hsame "Strengths"), (Hsame "Recommendations")
    by (cbn; tauto).
  reflexivity.
Qed.

Lemma fallback_reads_six_fields_witness :
  fallbackDocument (host := integer_host) jane_doe =
  fallbackDocument (host := integer_host) jane_doe_with_gaps.
Proof.
  apply (fallback_reads_six_fields (host := integer_host) jane_doe jane_doe_with_gaps);
    try discriminate.
  intros k Hk. cbn in Hk.
  repeat (destruct Hk as [<- | Hk]; [reflexivity |]). contradiction.
Defined.

(** X7. The page is fixed by the date and nine fields of the body: the six
    of the fallback document, the gaps, the scores and the countries. Any
    other property of the body changes nothing. *)
Theorem page_reads_nine_fields {host : Host} (date : string) (r1 r2 : JSON) :
  r1 <> JNull ->
  r2 <> JNull ->
  (forall k, In k page_fields -> field r1 k = field r2 k) ->
  generateHTMLContent date r1 = generateHTMLContent date r2.
Proof.
  intros H1 H2 Hsame.
  unfold generateHTMLContent, interpolations. cbv zeta.
  rewrite !(get_field r1), !(get_field r2) by assumption.
  rewrite (Hsame "Student Name"), (Hsame "studentName"), (Hsame "Scores"),
    (Hsame "Overall Readiness Index"), (Hsame "Readiness Level"),
    (Hsame "Strengths"), (Hsame "Gaps"), (Hsame "Recommendations"),
    (Hsame "Country Fit (Top 3)")
    by (cbn; tauto).
  reflexivity.
Qed.

Lemma page_reads_nine_fields_witness :
  generateHTMLContent (host := integer_host) "March 5, 2025" jane_doe =
  generateHTMLContent (host := integer_host) "March 5, 2025" jane_doe_with_email.
Proof.
  apply (page_reads_nine_fields
           (host := integer_host) "March 5, 2025" jane_doe jane_doe_with_email);
    try discriminate.
  intros k Hk. cbn in Hk.
  repeat (destruct Hk as [<- | Hk]; [reflexivity |]). contradiction.
Defined.

(** ** What the page shows *)

Lemma interpolations_not_null {host : Host} (results : JSON) (p : pieces) :
  interpolations results = OK p -> results <> JNull.
Proof.
  intros H ->. discriminate.
Qed.

Lemma layout_name (date : string) (p : pieces) :
  occurs (tpl_header ++ p_name p ++ tpl_date) (layout date p).
Proof. unfold layout. find_piece. Qed.

Lemma layout_countries (date : string) (p : pieces) :
  occurs (tpl_countries ++ p_countries p ++ tpl_footer) (layout date p).
Proof. unfold layout. find_piece. Qed.

(** X10. The name the page shows: the text of [Student Name] when that
    field is truthy, else the text of [studentName] when that one is, else
    Student. *)
Theorem student_name_precedence {host : Host}
    (date : string) (results : JSON) (html : string) :
  generateHTMLContent date results = OK html ->
  exists name,
    occurs (tpl_header ++ name ++ tpl_date) html /\
    if named results "Student Name"
    then ToString (field results "Student Name") = OK name
    else if named results "studentName"
         then ToString (field results "studentName") = OK name
         else name = "Student".
Proof.
  intros H. apply generateHTMLContent_layout in H as (p & Hp & ->).
  pose proof (interpolations_not_null _ _ Hp) as Hn.
  apply interpolations_texts in Hp as ((v & Hv & Hs) & _).
  exists (p_name p). split; [apply layout_name |].
  unfold named. rewrite !(get_field _ _ Hn) in Hv.
  unfold or_else, bind, text in Hv.
  destruct (truthy (field results "Student Name")) eqn:E1.
  - rewrite E1 in Hv. injection Hv as <-. exact Hs.
  - destruct (truthy (field results "studentName")) eqn:E2;
      rewrite ?E2 in Hv; injection Hv as <-; [exact Hs |].
    cbn in Hs. congruence.
Qed.

Lemma student_name_precedence_witness :
  exists html name,
    generateHTMLContent (host := integer_host) "March 5, 2025"
      (JObj [ ("studentName", JStr "Ana"); ("Student Name", JStr "Jane Doe") ]) =
    OK html /\
    occurs (tpl_header ++ name ++ tpl_date) html /\
    name = "Jane Doe".
Proof.
  eexists.
  destruct (student_name_precedence
              (host := integer_host) "March 5, 2025"
              (JObj [ ("studentName", JStr "Ana"); ("Student Name", JStr "Jane Doe") ])
              _ eq_refl) as (name & Hocc & Hname).
  exists name. split; [reflexivity |]. split; [exact Hocc |].
  cbn in Hname. congruence.
Defined.

Lemma renders_index {host : Host} (results : JSON) (s : string) :
  renders (get (Some results) "Overall Readiness Index" ||| OK (Some (JNum (Fin 0)))) s ->
  shows results "Overall Readiness Index" "0" s.
Proof.
  intros (v & Hv & Hs). unfold shows.
  destruct (truthy (field results "Overall Readiness Index")) eqn:E.
  - apply truthy_is_taken in Hv; [| exact E]. now subst v.
  - apply falsy_takes_default in Hv; [| exact E].
    injection Hv as <-. cbn in Hs. congruence.
Qed.

(** X11. What the page shows for the overall index, the readiness level,
    the strengths, the gaps and the recommendations: the text of the field
    as it is when the field is truthy, and the default (0, Needs
    Assessment, No strengths identified, No gaps identified, No
    recommendations provided) when the field is absent or falsy, the empty
    string included. *)
Theorem page_shows_field_or_default {host : Host}
    (date : string) (results : JSON) (html : string) :
  generateHTMLContent date results = OK html ->
  exists index level strengths gaps recommendations,
    occurs (tpl_index ++ index ++ tpl_level) html /\
    occurs (tpl_level ++ level ++ tpl_scores) html /\
    occurs (tpl_strengths ++ strengths ++ tpl_gaps) html /\
    occurs (tpl_gaps ++ gaps ++ tpl_recommendations) html /\
    occurs (tpl_recommendations ++ recommendations ++ tpl_countries) html /\
    shows results "Overall Readiness Index" "0" index /\
    shows results "Readiness Level" "Needs Assessment" level /\
    shows results "Strengths" "No strengths identified" strengths /\
    shows results "Gaps" "No gaps identified" gaps /\
    shows results "Recommendations" "No recommendations provided" recommendations.
Proof.
  intros H. apply generateHTMLContent_layout in H as (p & Hp & ->).
  apply interpolations_texts in Hp as (_ & Hi & Hl & Hs & Hg & Hr).
  exists (p_index p), (p_level p), (p_strengths p), (p_gaps p), (p_recommendations p).
  split; [apply layout_index |]. split; [apply layout_level |].
  split; [apply layout_strengths |]. split; [apply layout_gaps |].
  split; [apply layout_recommendations |].
  split; [now apply renders_index |].
  repeat split; now apply shown_shows, renders_shown.
Qed.

Lemma page_shows_field_or_default_witness :
  exists html,
    generateHTMLContent (host := integer_host) "March 5, 2025" full_result = OK html /\
    occurs (tpl_index ++ "72" ++ tpl_level) html /\
    occurs (tpl_level ++ "Ready" ++ tpl_scores) html /\
    occurs (tpl_strengths ++ "Strong academic record" ++ tpl_gaps) html /\
    occurs (tpl_gaps ++ "Funding plan" ++ tpl_recommendations) html /\
    occurs (tpl_recommendations ++ "Apply for scholarships" ++ tpl_countries) html.
Proof.
  eexists. split; [reflexivity |].
  destruct (page_shows_field_or_default
              (host := integer_host) "March 5, 2025" full_result _ eq_refl)
    as (index & level & strengths & gaps & recs
        & H1 & H2 & H3 & H4 & H5 & Si & Sl & Ss & Sg & Sr).
  cbn in Si, Sl, Ss, Sg, Sr.
  injection Si as <-. injection Sl as <-. injection Ss as <-.
  injection Sg as <-. injection Sr as <-.
  repeat split; assumption.
Defined.

Lemma scores_grid_witness :
  exists html p,
    generateHTMLContent (host := integer_host) "March 5, 2025" full_result = OK html /\
    html = layout "March 5, 2025" p /\
    occurs (p_financial p) html /\
    p_financial p = card "Financial Planning" "85" "excellent" "25%".
Proof.
  eexists.
  destruct (scores_grid (host := integer_host) "March 5, 2025" full_result _ _
              "Financial Planning" "25%" p_financial eq_refl eq_refl)
    as (p & Hp & Hocc & _ & _ & Hcard); [cbn; tauto |].
  exists p. split; [reflexivity |]. split; [exact Hp |]. split; [exact Hocc |].
  apply (Hcard (inject_Z 85) eq_refl). discriminate.
Defined.

(** ** The countries *)

Lemma countryCards_of_strings {host : Host} (countries : list string) (index : nat) :
  countryCards (map JStr countries) index = OK (country_cards countries index).
Proof.
  revert index. induction countries as [|c countries IH]; intros index; [reflexivity |].
  cbn [map countryCards country_cards].
  rewrite generateCountryCard_string, IH. cbn [bind]. unfold country_card.
  now rewrite (Z.mul_comm (Z.of_nat index) 15).
Qed.

Lemma country_cards_nth (countries : list string) (index k : nat) (country : string) :
  nth_error countries k = Some country ->
  occurs (country_card country (index + k)) (country_cards countries index).
Proof.
  revert index k. induction countries as [|c countries IH]; intros index k H.
  - destruct k; discriminate.
  - destruct k as [|k]; cbn in H.
    + injection H as ->. rewrite Nat.add_0_r. cbn [country_cards]. apply occurs_here.
    + cbn [country_cards]. apply occurs_later.
      replace (index + S k)%nat with (S index + k)%nat by lia. now apply IH.
Qed.

(** X12. The section of the countries for an array of strings. An empty
    array gives no section. Otherwise the section holds one card for every
    country of the array, however many there are, not for the first three
    only: the country at position k has rank k + 1 and match percentage
    100 - 15 * k, which is not clamped. *)
Theorem country_section_of_strings {host : Host}
    (date : string) (results : JSON) (html : string) (countries : list string) :
  generateHTMLContent date results = OK html ->
  field results "Country Fit (Top 3)" = Some (JArr (map JStr countries)) ->
  exists section,
    occurs (tpl_countries ++ section ++ tpl_footer) html /\
    (countries = [] -> section = EmptyString) /\
    (countries <> [] ->
     section = fit_open ++ country_cards countries 0 ++ fit_close) /\
    (forall k country,
       nth_error countries k = Some country ->
       occurs (country_card country k) section).
Proof.
  intros H Hfit. apply generateHTMLContent_layout in H as (p & Hp & ->).
  apply interpolations_cards in Hp as (scores & cf & _ & _ & Hcf & Hsection).
  apply truthy_is_taken in Hcf; [| now rewrite Hfit].
  rewrite Hfit in Hcf. subst cf.
  exists (p_countries p). split; [apply layout_countries |].
  destruct countries as [|c countries].
  - cbn in Hsection. injection Hsection as <-.
    split; [reflexivity |]. split; [contradiction |].
    intros k country Hk. destruct k; discriminate.
  - change (map JStr (c :: countries)) with (JStr c :: map JStr countries) in Hsection.
    cbn [countrySection] in Hsection.
    change (JStr c :: map JStr countries) with (map JStr (c :: countries)) in Hsection.
    rewrite countryCards_of_strings in Hsection. cbn [bind] in Hsection.
    assert (p_countries p = fit_open ++ country_cards (c :: countries) 0 ++ fit_close)
      as -> by congruence.
    split; [discriminate |]. split; [reflexivity |].
    intros k country Hk. apply occurs_later.
    pose proof (country_cards_nth (c :: countries) 0 k country Hk) as Hocc.
    cbn [Nat.add] in Hocc. destruct Hocc as (a & b & ->).
    exists a, (b ++ fit_close). now rewrite !append_assoc.
Qed.

Lemma country_section_of_strings_witness :
  exists html section,
    generateHTMLContent (host := integer_host) "March 5, 2025" full_result = OK html /\
    occurs (tpl_countries ++ section ++ tpl_footer) html /\
    section = fit_open ++ country_cards ["Canada"; "Germany"; "Ireland"] 0 ++ fit_close /\
    occurs (country_card "Ireland" 2) section.
Proof.
  eexists.
  destruct (country_section_of_strings
              (host := integer_host) "March 5, 2025" full_result _
              ["Canada"; "Germany"; "Ireland"] eq_refl eq_refl)
    as (section & Hocc & _ & Hsection & Hcards).
  exists section. split; [reflexivity |]. split; [exact Hocc |].
  split; [apply Hsection; discriminate | apply Hcards; reflexivity].
Defined.

(** X13. The flag of a country card, for every country string: the card is
    always produced; a country of the table shows the flag the table gives
    it; a name that every object inherits from [Object.prototype] shows the
    text undefined; every other string shows the globe. The table is read
    by the exact string, so canada in lower case shows the globe. *)
Theorem country_flag_cases {host : Host} (country : string) (index : nat) :
  generateCountryCard (JStr country) index = OK (country_card country index) /\
  (forall flag, In (country, flag) countryInfo -> shown_flag country = flag) /\
  (In country Object_prototype -> shown_flag country = "undefined") /\
  (~ In country (map fst countryInfo) ->
   ~ In country Object_prototype ->
   shown_flag country = "🌍") /\
  shown_flag "canada" = "🌍".
Proof.
  split.
  { rewrite generateCountryCard_string. unfold country_card.
    now rewrite (Z.mul_comm (Z.of_nat index) 15). }
  split.
  { intros flag Hin. cbn in Hin.
    repeat (destruct Hin as [Hin | Hin];
            [injection Hin as <- <-; reflexivity |]).
    contradiction. }
  split.
  { intros Hin. cbn in Hin.
    repeat (destruct Hin as [<- | Hin]; [reflexivity |]).
    contradiction. }
  split; [| reflexivity].
  intros Htable Hproto. unfold shown_flag, countryInfo_get.
  destruct (lookup countryInfo country) as [flag|] eqn:E.
  - exfalso. apply Htable. clear - E. unfold countryInfo in *. cbn [lookup] in E.
    repeat match type of E with
           | (if (?k =? country)%string then _ else _) = _ =>
               destruct (String.eqb_spec k country) as [<- | _];
               [cbn; tauto |]
           end.
    discriminate.
  - destruct (existsb (String.eqb country) Object_prototype) eqn:Ex; [| reflexivity].
    apply existsb_exists in Ex as (name & Hin & Heq).
    apply String.eqb_eq in Heq. subst name. contradiction.
Qed.

(** ** The score card *)

Lemma floor_at_least (n : Z) (y : Q) :
  (n <=? Qfloor y)%Z = true <-> (inject_Z n <= y)%Q.
Proof.
  rewrite Z.leb_le. split.
  - intros H. apply Qle_trans with (inject_Z (Qfloor y)).
    + now rewrite <- Zle_Qle.
    + apply Qfloor_le.
  - intros H.
    assert (inject_Z n < inject_Z (Qfloor y + 1))%Q as Hlt
      by (apply Qle_lt_trans with y; [exact H | apply Qlt_floor]).
    rewrite <- Zlt_Qlt in Hlt. lia.
Qed.

(** X14. The thresholds of the colour on the score as given. Because the
    score is rounded first, a score is excellent from 79.5 on, good from
    59.5 on, average from 39.5 on and weak below 39.5. *)
Theorem raw_score_thresholds (x : Q) :
  (barClass (Math_round (Fin x)) = "excellent" <-> (159 # 2 <= x)%Q) /\
  (barClass (Math_round (Fin x)) = "good" <->
   (119 # 2 <= x)%Q /\ (x < 159 # 2)%Q) /\
  (barClass (Math_round (Fin x)) = "average" <->
   (79 # 2 <= x)%Q /\ (x < 119 # 2)%Q) /\
  (barClass (Math_round (Fin x)) = "weak" <-> (x < 79 # 2)%Q).
Proof.
  rewrite barClass_round. unfold colour.
  pose proof (floor_at_least 80 (x + (1 # 2))%Q) as H80.
  pose proof (floor_at_least 60 (x + (1 # 2))%Q) as H60.
  pose proof (floor_at_least 40 (x + (1 # 2))%Q) as H40.
  assert (forall n, (inject_Z n <= x + (1 # 2))%Q <-> (inject_Z n - (1 # 2) <= x)%Q)
    as Hshift by (intros n; split; intros H; lra).
  rewrite Hshift in H80, H60, H40.
  destruct (80 <=? Qfloor (x + (1 # 2)))%Z eqn:E80;
    destruct (60 <=? Qfloor (x + (1 # 2)))%Z eqn:E60;
    destruct (40 <=? Qfloor (x + (1 # 2)))%Z eqn:E40;
    assert (B80 := H80); assert (B60 := H60); assert (B40 := H40);
    try (apply proj1 in H80; specialize (H80 eq_refl));
    try (apply proj1 in H60; specialize (H60 eq_refl));
    try (apply proj1 in H40; specialize (H40 eq_refl));
    assert (forall b : bool, b = false -> b <> true) as Hneg
      by (intros b -> ; discriminate);
    repeat match goal with
           | B : false = true <-> ?P |- _ =>
               assert (~ P) by (intros HP; apply B in HP; discriminate HP);
               clear B
           end;
    unfold inject_Z in *;
    repeat split; intros; try discriminate; try lra.
Qed.

(** ** The page and the fallback document together *)

(** X15. The fallback document shows what the page shows. For one body
    the readiness level, the strengths and the recommendations are the same
    texts in both, and so is the student name when the body has one. (They
    differ where a field is missing: the index is 0 in the page and N/A in
    the document.) *)
Theorem fallback_agrees_with_page {host : Host}
    (date : string) (results : JSON) (html doc : string) :
  generateHTMLContent date results = OK html ->
  fallbackDocument results = OK doc ->
  (exists level strengths recommendations,
     occurs (tpl_level ++ level ++ tpl_scores) html /\
     occurs (fb_level ++ level ++ fb_strengths) doc /\
     occurs (tpl_strengths ++ strengths ++ tpl_gaps) html /\
     occurs (fb_strengths ++ strengths ++ fb_recommendations) doc /\
     occurs (tpl_recommendations ++ recommendations ++ tpl_countries) html /\
     occurs (fb_recommendations ++ recommendations ++ fb_note) doc) /\
  (named results "Student Name" = true \/ named results "studentName" = true ->
   exists name,
     occurs (tpl_header ++ name ++ tpl_date) html /\
     occurs (fb_title ++ name ++ fb_student ++ name ++ fb_index) doc).
Proof.
  intros H Hd. apply generateHTMLContent_layout in H as (p & Hp & ->).
  pose proof (interpolations_not_null _ _ Hp) as Hn.
  apply interpolations_texts in Hp as (Hname & _ & Hl & Hs & _ & Hr).
  apply fallbackDocument_texts in Hd
    as (name & index & level & strengths & recs & Hfn & _ & Hfl & Hfs & Hfr & ->).
  apply renders_shown in Hl, Hs, Hr.
  assert (level = p_level p) as -> by congruence.
  assert (strengths = p_strengths p) as -> by congruence.
  assert (recs = p_recommendations p) as -> by congruence.
  split.
  - exists (p_level p), (p_strengths p), (p_recommendations p).
    split; [apply layout_level |]. split; [find_piece |].
    split; [apply layout_strengths |]. split; [find_piece |].
    split; [apply layout_recommendations |].
    exists (fb_title ++ name ++ fb_student ++ name ++ fb_index ++ index ++
            fb_level ++ p_level p ++ fb_strengths ++ p_strengths p), EmptyString.
    now rewrite append_empty_r, !append_assoc.
  - intros Hnamed. exists (p_name p). split; [apply layout_name |].
    assert (name = p_name p) as ->;
      [| eexists EmptyString, _; rewrite !append_assoc; reflexivity].
    destruct Hname as (v & Hv & Hname).
    rewrite (givenName_defined _ Hn) in Hfn. cbn [bind] in Hfn.
    rewrite !(get_field _ _ Hn) in Hv. unfold or_else, bind, text, named in *.
    destruct (truthy (field results "Student Name")) eqn:E1.
    + rewrite E1 in Hv. injection Hv as <-. congruence.
    + destruct Hnamed as [Hnamed | Hnamed]; [discriminate |].
      rewrite Hnamed in Hv. injection Hv as <-. congruence.
Qed.

Lemma fallback_agrees_with_page_witness :
  exists html doc name,
    generateHTMLContent (host := integer_host) "March 5, 2025" full_result = OK html /\
    fallbackDocument (host := integer_host) full_result = OK doc /\
    occurs (tpl_header ++ name ++ tpl_date) html /\
    occurs (fb_title ++ name ++ fb_student ++ name ++ fb_index) doc.
Proof.
  eexists _, _.
  destruct (fallback_agrees_with_page
              (host := integer_host) "March 5, 2025" full_result _ _ eq_refl eq_refl)
    as (_ & Hname).
  destruct Hname as (name & H1 & H2); [left; reflexivity |].
  exists name. split; [reflexivity |]. split; [reflexivity |]. split; assumption.
Defined.

(** ** The slug *)

(** X16. The slug of a name of white space and Latin-1 characters is in
    normal form: it has no white space and no capital letter, and taking
    the slug of a slug changes nothing. *)
Theorem slug_normal_form {host : Host} (name : string) :
  written_in latin1 name = true ->
  exists s,
    slug (Some (JStr name)) = OK s /\
    no_whitespace s = true /\
    no_upper s = true /\
    slug (Some (JStr s)) = OK s.
Proof.
  intros H. exists (toLowerCase (replace_whitespace name)).
  destruct (slug_is_clean name H) as (H1 & Hw & Hu).
  split; [reflexivity |]. split; [exact Hw |]. split; [exact Hu |].
  cbn [slug]. now rewrite clean_name_is_its_slug.
Qed.

Lemma slug_normal_form_witness :
  exists s,
    slug (host := integer_host) (Some (JStr ("Jane" ++ utf8 0xA0 ++ "DOE  ÉMILE"))) =
    OK s /\
    no_whitespace s = true /\
    no_upper s = true /\
    slug (host := integer_host) (Some (JStr s)) = OK s.
Proof.
  apply (slug_normal_form (host := integer_host) ("Jane" ++ utf8 0xA0 ++ "DOE  ÉMILE")).
  reflexivity.
Defined.

(** X17. On a name of white space and Latin-1 characters the slug changes
    white space and capital letters and nothing else: the name is its own
    slug if and only if it has neither. *)
Theorem slug_keeps_exactly_the_clean_names {host : Host} (name : string) :
  written_in latin1 name = true ->
  (slug (Some (JStr name)) = OK name <->
   no_whitespace name = true /\ no_upper name = true).
Proof.
  intros H. cbn [slug]. split.
  - intros Hs. injection Hs as Hs. now apply slug_of_itself_is_clean.
  - intros (Hw & Hu). now rewrite clean_name_is_its_slug.
Qed.

Lemma slug_keeps_exactly_the_clean_names_witness :
  (slug (host := integer_host) (Some (JStr "o'neill/émile.pdf")) =
   OK "o'neill/émile.pdf" <->
   no_whitespace "o'neill/émile.pdf" = true /\
   no_upper "o'neill/émile.pdf" = true) /\
  (slug (host := integer_host) (Some (JStr "Émile")) = OK "Émile" <->
   no_whitespace "Émile" = true /\ no_upper "Émile" = true) /\
  no_upper "Émile" = false.
Proof.
  split; [| split; [| reflexivity]].
  - apply (slug_keeps_exactly_the_clean_names (host := integer_host) "o'neill/émile.pdf").
    reflexivity.
  - apply (slug_keeps_exactly_the_clean_names (host := integer_host) "Émile").
    reflexivity.
Defined.

Lemma toLowerCase_word {host : Host} (word : string) :
  written_in latin1 word = true ->
  no_whitespace word = true ->
  toLowerCase word = join (map lower (characters word)).
Proof.
  intros H Hw. unfold toLowerCase.
  assert (forallb latin (characters word) = true) as ->; [| reflexivity].
  unfold written_in, no_whitespace in *. rewrite forallb_forall in *.
  intros ch Hin. specialize (H _ Hin). specialize (Hw _ Hin).
  apply negb_true_iff in Hw. rewrite Hw in H. now apply latin1_latin.
Qed.

(** X20. Two words with white space between them, the words in Latin-1.
    Whatever the length of the run of white space, and whichever characters
    of the class [\s] it is made of, the slug is the first word in lower
    case, one hyphen and the second word in lower case. Nothing is trimmed:
    with an empty first word, that is a name that starts with white space,
    the slug starts with the hyphen. *)
Theorem slug_of_two_words {host : Host} (first run second : string) :
  written_in latin1 first = true ->
  written_in latin1 second = true ->
  no_whitespace first = true ->
  all_whitespace run = true ->
  run <> EmptyString ->
  no_whitespace second = true ->
  slug (Some (JStr (first ++ run ++ second))) =
  OK (toLowerCase first ++ "-" ++ toLowerCase second).
Proof.
  intros H1 H2 Hfirst Hrun Hne Hsecond.
  assert (forallb complete (characters run) = true) as Hcr
    by (revert Hrun; apply forallb_impl, isWhiteSpace_complete).
  pose proof (written_in_complete latin1 first latin1_complete H1) as Hcf.
  assert (characters (first ++ run ++ second) =
          (characters first ++ characters run ++ characters second)%list) as Hcs
    by (now rewrite (characters_app _ _ Hcf), (characters_app _ _ Hcr)).
  assert (written_in latin1 (first ++ run ++ second) = true) as Hall.
  { unfold written_in in *. rewrite Hcs, !forallb_app, H1, H2.
    cbn [andb]. rewrite andb_true_r. revert Hrun. apply forallb_impl.
    now intros ch ->. }
  assert (characters run <> []) as Hne'.
  { intros E. apply Hne. now rewrite <- (join_characters run), E. }
  cbn [slug]. f_equal.
  rewrite (proj1 (slug_characters _ Hall)), Hcs.
  rewrite (replace_runs_one_hyphen _ _ _ Hfirst Hrun Hne').
  rewrite (replace_runs_plain _ _ Hsecond).
  rewrite map_app, join_app. cbn [map]. rewrite join_cons.
  now rewrite (toLowerCase_word _ H1 Hfirst), (toLowerCase_word _ H2 Hsecond).
Qed.

Lemma slug_of_two_words_witness :
  slug (host := integer_host)
    (Some (JStr ("Jane" ++ (" " ++ utf8 0x9 ++ utf8 0x2003 ++ utf8 0xA0) ++ "DOE"))) =
  OK "jane-doe" /\
  slug (host := integer_host) (Some (JStr ("" ++ "  " ++ "Ana"))) = OK "-ana".
Proof.
  split.
  - apply (slug_of_two_words (host := integer_host)
             "Jane" (" " ++ utf8 0x9 ++ utf8 0x2003 ++ utf8 0xA0) "DOE");
      try reflexivity.
    discriminate.
  - apply (slug_of_two_words (host := integer_host) "" "  " "Ana"); try reflexivity.
    discriminate.
Defined.

(** ** The recommendation section *)

Lemma recommendationItems_app (a b : list string) (index : nat) :
  recommendationItems (a ++ b)%list index =
  recommendationItems a index ++ recommendationItems b (index + length a).
Proof.
  revert index. induction a as [|item a IH]; intros index.
  - cbn. now rewrite Nat.add_0_r.
  - cbn [app recommendationItems length]. rewrite IH, !append_assoc.
    now replace (S index + length a)%nat with (index + S (length a))%nat by lia.
Qed.

(** X18. The items of a recommendation section are numbered from 1 in the
    order of the list, and the section of a list put together from two is
    the section of the first followed by the items of the second, numbered
    on from where the first ends. With no item the section is its header
    over an empty content. *)
Theorem recommendation_sections_compose (title icon : string) (a b : list string) :
  generateRecommendationSection title (a ++ b)%list icon =
  rec_open ++ icon ++ rec_title ++ title ++ rec_items ++
  recommendationItems a 0 ++ recommendationItems b (length a) ++ rec_close /\
  generateRecommendationSection title [] icon =
  rec_open ++ icon ++ rec_title ++ title ++ rec_items ++ rec_close.
Proof.
  split; [| reflexivity].
  unfold generateRecommendationSection.
  now rewrite recommendationItems_app, !append_assoc.
Qed.

Lemma recommendationItems_nth (items : list string) (index k : nat) (item : string) :
  nth_error items k = Some item ->
  occurs (recommendation_item item (index + k)) (recommendationItems items index).
Proof.
  revert index k. induction items as [|i items IH]; intros index k H.
  - destruct k; discriminate.
  - destruct k as [|k]; cbn in H.
    + injection H as ->. rewrite Nat.add_0_r. cbn [recommendationItems].
      apply occurs_here.
    + cbn [recommendationItems]. apply occurs_later.
      replace (index + S k)%nat with (S index + k)%nat by lia. now apply IH.
Qed.

(** X19. Every item of the list is in the section, with its position plus
    one as its number and its text as it is. *)
Theorem recommendation_items_are_numbered
    (title icon : string) (items : list string) (k : nat) (item : string) :
  nth_error items k = Some item ->
  occurs (item_open ++ decimal (Z.of_nat k + 1) ++ item_text ++ item ++ item_close)
         (generateRecommendationSection title items icon).
Proof.
  intros H. unfold generateRecommendationSection.
  do 4 apply occurs_later.
  destruct (recommendationItems_nth items 0 k item H) as (a & b & Hab).
  cbn [Nat.add] in Hab. rewrite Hab.
  exists (rec_items ++ a), (b ++ rec_close). unfold recommendation_item.
  now rewrite !append_assoc.
Qed.

Lemma recommendation_items_are_numbered_witness :
  occurs (item_open ++ "2" ++ item_text ++ "Open a bank account" ++ item_close)
         (generateRecommendationSection "Next steps"
            ["Apply for scholarships"; "Open a bank account"] "*").
Proof.
  apply (recommendation_items_are_numbered "Next steps" "*"
           ["Apply for scholarships"; "Open a bank account"] 1 "Open a bank account").
  reflexivity.
Defined.
